(** * DevSentinel (CodeRoaster) editor extension: diagnostic ledger,
      request construction and quick-fix generation.

    The extension is a TypeScript program over the editor API.  Its global
    [diagnosticCollection] is modelled as a finite map from document URIs to
    lists of diagnostics, the command handlers as state transformers that
    receive the settled result of the HTTP call, and the code-action provider
    as a pure function from a diagnostic to a code action. *)

From Stdlib Require Import ZArith QArith Strings.String Strings.Ascii
  Numbers.DecimalString.
From stdpp Require Import base option list strings gmap.

Local Open Scope string_scope.
Local Open Scope Z_scope.

(** ** JavaScript string primitives used by the extension *)

Module JsString.

(** [needle] starts [hay] at its first character. *)
Fixpoint startsWith (needle hay : string) : bool :=
  match needle, hay with
  | EmptyString, _ => true
  | String a n', String b h' => if Ascii.eqb a b then startsWith n' h' else false
  | String _ _, EmptyString => false
  end.

(** [String.prototype.includes]: [needle] occurs in [hay] at some offset. *)
Fixpoint includes (needle hay : string) : bool :=
  startsWith needle hay ||
  match hay with
  | EmptyString => false
  | String _ h' => includes needle h'
  end.

(** The propositional reading of substring containment. *)
Definition Contains (needle hay : string) : Prop :=
  exists pre post, hay = pre +:+ needle +:+ post.

(** The character class [[\r\n]]. *)
Definition isLineBreak (c : ascii) : bool :=
  Ascii.eqb c "013"%char || Ascii.eqb c "010"%char.

(** The whole string matches [[\r\n]*]. *)
Fixpoint allLineBreaks (s : string) : bool :=
  match s with
  | EmptyString => true
  | String c s' => isLineBreak c && allLineBreaks s'
  end.

(** [s.replace(/[\r\n]+$/, '')]: the leftmost offset from which
    everything up to the end of input is a non-empty run of line breaks
    is where the match starts; the match is replaced by the empty string. *)
Fixpoint stripTrailingLineBreaks (s : string) : string :=
  match s with
  | EmptyString => EmptyString
  | String c s' =>
      if allLineBreaks s then EmptyString
      else String c (stripTrailingLineBreaks s')
  end.

(** The last character of a string, if any. *)
Fixpoint lastChar (s : string) : option ascii :=
  match s with
  | EmptyString => None
  | String c EmptyString => Some c
  | String _ s' => lastChar s'
  end.

(** Truthiness of a possibly-undefined string: [undefined] and [''] are
    falsy. *)
Definition truthy (v : option string) : bool :=
  match v with
  | Some (String _ _) => true
  | _ => false
  end.

(** [v || dflt] on a possibly-undefined string. *)
Definition orElse (v : option string) (dflt : string) : string :=
  match v with
  | Some (String c s) => String c s
  | _ => dflt
  end.

(** Template-literal rendering of an integer-valued number. *)
Definition ofZ (z : Z) : string := NilZero.string_of_int (Z.to_int z).

Definition ofNat (n : nat) : string := ofZ (Z.of_nat n).

End JsString.

(** ** Editor API values *)

Inductive DiagnosticSeverity : Type :=
| Error
| Warning
| Information
| Hint.

Record Position : Type := mkPosition { line : Z; character : Z }.

Record Range : Type := mkRange { range_start : Position; range_end : Position }.

(** [Number.MAX_VALUE], the largest finite double: 2^1024 - 2^971. *)
Definition Number_MAX_VALUE : Z := 2 ^ 1024 - 2 ^ 971.

(** [new vscode.Range(startLine, startChar, endLine, endChar)], taken as
    the plain pair of positions it denotes.  Wire line numbers count from
    one, so the line indices the handlers pass are not negative. *)
Definition newRange (sl sc el ec : Z) : Range :=
  mkRange (mkPosition sl sc) (mkPosition el ec).

(** A [vscode.Diagnostic] with the fields the extension sets.  [source] and
    [code] are [undefined] until assigned. *)
Record Diagnostic : Type := mkDiagnostic {
  range : Range;
  message : string;
  severity : DiagnosticSeverity;
  source : option string;
  code : option string
}.

(** [new vscode.Diagnostic(range, message, severity)] *)
Definition newDiagnostic (r : Range) (m : string) (s : DiagnosticSeverity) : Diagnostic :=
  mkDiagnostic r m s None None.

Definition set_source (v : string) (d : Diagnostic) : Diagnostic :=
  mkDiagnostic (range d) (message d) (severity d) (Some v) (code d).

Definition set_code (v : option string) (d : Diagnostic) : Diagnostic :=
  mkDiagnostic (range d) (message d) (severity d) (source d) v.

(** ** Wire protocol *)

(** One element of [comments] in a /review or /security-scan response. *)
Record CodeFix : Type := mkCodeFix {
  line_number : Z;
  cf_severity : option string;
  suggestion : string;
  fixed_code : option string
}.

(** One element of [functions] in a /complexity response. *)
Record FunctionInfo : Type := mkFunctionInfo {
  name : string;
  fn_line_number : Z;
  complexity : Z;
  is_complex : bool
}.

Record ComplexityData : Type := mkComplexityData {
  functions : list FunctionInfo;
  threshold : Z
}.

(** The error object a rejected axios call throws. *)
Record AxiosError : Type := mkAxiosError {
  err_code : option string;
  err_message : string;
  err_toString : string
}.

(** The settled result of [await axios.post(...)] with payload type [A]. *)
Inductive Settled (A : Type) : Type :=
| Resolved (data : A)
| Rejected (error : AxiosError).
Arguments Resolved {A} data.
Arguments Rejected {A} error.

(** ** [mapSeverity] *)

Definition mapSeverity (severity : string) : DiagnosticSeverity :=
  if String.eqb severity "error" then Error
  else if String.eqb severity "warning" then Warning
  else if String.eqb severity "info" then Information
  else if String.eqb severity "hint" then Hint
  else Warning.

(** ** Configuration *)

(** The [devsentinel] configuration section; a setting that has no value
    reads as [undefined]. *)
Record Config : Type := mkConfig {
  backendUrl : option string;
  requestTimeout : option Q
}.

(** [n || dflt] on a possibly-undefined number: [undefined] and [0] are
    falsy. *)
Definition numberOr (n : option Q) (dflt : Q) : Q :=
  match n with
  | Some q => if Qeq_bool q 0 then dflt else q
  | None => dflt
  end.

Definition getBackendUrl (config : Config) : string :=
  JsString.orElse (backendUrl config) "http://127.0.0.1:8000".

(** ** Requests *)

Inductive RequestKind : Type :=
| ReviewKind
| RoastKind
| SecurityScanKind
| ComplexityKind.

(** What a handler passes to [axios.post(url, body, { timeout })]. *)
Record Request : Type := mkRequest {
  req_url : string;
  full_file_content : string;
  file_path : string;
  req_timeout : Q
}.

(** The open document of the active editor.  [fileName] holds
    [path.basename(document.fileName)], the only form the handlers use. *)
Record TextDocument : Type := mkTextDocument {
  uri : string;
  fileName : string;
  getText : string
}.

Definition endpoint (kind : RequestKind) : string :=
  match kind with
  | ReviewKind => "/review"
  | RoastKind => "/roast"
  | SecurityScanKind => "/security-scan"
  | ComplexityKind => "/complexity"
  end.

(** The [timeout] constant each handler computes before its call. *)
Definition timeoutOf (kind : RequestKind) (config : Config) : Q :=
  match kind with
  | ReviewKind => numberOr (requestTimeout config) 90000
  | RoastKind => numberOr (requestTimeout config) 60000
  | SecurityScanKind => (numberOr (requestTimeout config) 90000 * 1.5)%Q
  | ComplexityKind => numberOr (requestTimeout config) 60000
  end.

Definition request (kind : RequestKind) (config : Config) (document : TextDocument) : Request :=
  mkRequest (getBackendUrl config +:+ endpoint kind)
            (getText document) (fileName document) (timeoutOf kind config).

(** ** Extension state *)

Inductive NotificationKind : Type :=
| InformationMessage
| WarningMessage
| ErrorMessage.

Record Notification : Type := mkNotification {
  note_kind : NotificationKind;
  note_text : string
}.

(** Messages posted to the sidebar webview. *)
Inductive SidebarMessage : Type :=
| MsgLoading (action file : string)
| MsgResult (action file : string) (comments : list CodeFix) (count : nat)
| MsgError (action : string) (msg : string)
| MsgComplexity (file : string) (fns : list FunctionInfo) (thr : Z) (complexCount : nat)
| MsgRoast (file roast : string)
| MsgStatus (online : bool).

Record StatusBar : Type := mkStatusBar {
  sb_text : string;
  sb_tooltip : string;
  sb_errorBackground : bool
}.

(** The module-level globals plus the notifications and panels shown so
    far (each log is oldest first).  [panels] records the roast text each
    roast panel was rendered from. *)
Record ExtState : Type := mkExtState {
  diagnosticCollection : gmap string (list Diagnostic);
  outputChannel : list string;
  statusBarItem : StatusBar;
  sidebar : list SidebarMessage;
  notifications : list Notification;
  panels : list string
}.

(** *** Effects *)

Definition Effect : Type := ExtState -> ExtState.

Definition andThen (f g : Effect) : Effect := fun st => g (f st).
Infix ">>>" := andThen (at level 61, left associativity).

Definition skip : Effect := fun st => st.

Definition appendLine (l : string) : Effect := fun st =>
  mkExtState (diagnosticCollection st) (outputChannel st ++ [l]) (statusBarItem st)
             (sidebar st) (notifications st) (panels st).

Definition setStatusBar (sb : StatusBar) : Effect := fun st =>
  mkExtState (diagnosticCollection st) (outputChannel st) sb
             (sidebar st) (notifications st) (panels st).

Definition postMessage (m : SidebarMessage) : Effect := fun st =>
  mkExtState (diagnosticCollection st) (outputChannel st) (statusBarItem st)
             (sidebar st ++ [m]) (notifications st) (panels st).

Definition notify (k : NotificationKind) (t : string) : Effect := fun st =>
  mkExtState (diagnosticCollection st) (outputChannel st) (statusBarItem st)
             (sidebar st) (notifications st ++ [mkNotification k t]) (panels st).

Definition showInformationMessage : string -> Effect := notify InformationMessage.
Definition showWarningMessage : string -> Effect := notify WarningMessage.
Definition showErrorMessage : string -> Effect := notify ErrorMessage.

Definition createRoastPanel (roast : string) : Effect := fun st =>
  mkExtState (diagnosticCollection st) (outputChannel st) (statusBarItem st)
             (sidebar st) (notifications st) (panels st ++ [roast]).

(** [diagnosticCollection.set(uri, diagnostics)] *)
Definition setDiagnostics (u : string) (ds : list Diagnostic) : Effect := fun st =>
  mkExtState (<[u := ds]> (diagnosticCollection st)) (outputChannel st) (statusBarItem st)
             (sidebar st) (notifications st) (panels st).

(** [diagnosticCollection.get(uri) || []] *)
Definition getDiagnostics (st : ExtState) (u : string) : list Diagnostic :=
  default [] (diagnosticCollection st !! u).

(** [checkBackendConnection], given whether the liveness GET resolved. *)
Definition checkBackendConnection (config : Config) (online : bool) : Effect :=
  if online then
    setStatusBar (mkStatusBar "$(shield) DevSentinel" "DevSentinel Backend: Online" false) >>>
    appendLine ("[INFO] Connected to backend at " +:+ getBackendUrl config)
  else
    setStatusBar (mkStatusBar "$(error) DevSentinel" "DevSentinel Backend: Offline" true) >>>
    appendLine ("[ERROR] Failed to connect to backend at " +:+ getBackendUrl config).

(** ** Building diagnostics from findings *)

Definition reviewDiagnostic (review : CodeFix) : Diagnostic :=
  let lineIndex := line_number review - 1 in
  let range := newRange lineIndex 0 lineIndex Number_MAX_VALUE in
  let diagnostic :=
    newDiagnostic range ("DevSentinel: " +:+ suggestion review)
                  (mapSeverity (JsString.orElse (cf_severity review) "warning")) in
  set_code (fixed_code review) (set_source "DevSentinel" diagnostic).

Definition securityDiagnostic (review : CodeFix) : Diagnostic :=
  let lineIndex := line_number review - 1 in
  let range := newRange lineIndex 0 lineIndex Number_MAX_VALUE in
  let diagnostic :=
    newDiagnostic range ("[SECURITY] DevSentinel: " +:+ suggestion review)
                  (mapSeverity (JsString.orElse (cf_severity review) "error")) in
  set_code (fixed_code review) (set_source "DevSentinel" diagnostic).

Definition complexityDiagnostic (threshold : Z) (f : FunctionInfo) : Diagnostic :=
  let lineIndex := fn_line_number f - 1 in
  let range := newRange lineIndex 0 lineIndex Number_MAX_VALUE in
  let diagnostic :=
    newDiagnostic range
      ("[COMPLEXITY] DevSentinel: Function '" +:+ name f
         +:+ "' has cyclomatic complexity of " +:+ JsString.ofZ (complexity f)
         +:+ " (threshold: " +:+ JsString.ofZ threshold +:+ ")")
      Warning in
  set_source "DevSentinel" diagnostic.

(** ** Command handlers (current extension)

    Each handler receives the active document (if any) and the settled
    result of its [axios.post]; [probe] tells whether the liveness GET of
    [checkBackendConnection] resolves, should the handler issue one. *)

Definition dquote : string := String (ascii_of_nat 34) EmptyString.

Definition isCode (c : string) (error : AxiosError) : bool :=
  match err_code error with
  | Some c' => String.eqb c' c
  | None => false
  end.

Definition review (config : Config) (editor : option TextDocument)
    (response : Settled (list CodeFix)) (probe : bool) : Effect :=
  match editor with
  | None => showErrorMessage "No active editor found."
  | Some document =>
      postMessage (MsgLoading "Review" (fileName document)) >>>
      match response with
      | Resolved reviews =>
          let diagnostics := map reviewDiagnostic reviews in
          setDiagnostics (uri document) diagnostics >>>
          postMessage (MsgResult "Review" (fileName document) reviews (length reviews)) >>>
          (if Nat.eqb (length reviews) 0
           then showInformationMessage "DevSentinel: Code looks good! No issues found."
           else showInformationMessage
                  ("DevSentinel: Found " +:+ JsString.ofNat (length reviews) +:+ " issues."))
      | Rejected error =>
          let msg := JsString.orElse (Some (err_message error)) (err_toString error) in
          appendLine ("[ERROR] Review failed: " +:+ msg) >>>
          postMessage (MsgError "Review" msg) >>>
          (if isCode "ECONNREFUSED" error then
             showErrorMessage "DevSentinel: Could not connect to backend. Is it running?" >>>
             checkBackendConnection config probe
           else if isCode "ECONNABORTED" error then
             showErrorMessage
               ("DevSentinel: Request timed out. Try increasing " +:+ dquote
                  +:+ "devsentinel.requestTimeout" +:+ dquote +:+ " in settings.")
           else showErrorMessage ("DevSentinel Error: " +:+ msg))
      end
  end.

Definition roast (config : Config) (editor : option TextDocument)
    (response : Settled string) : Effect :=
  match editor with
  | None => showErrorMessage "No active editor found to roast."
  | Some document =>
      postMessage (MsgLoading "Roast" (fileName document)) >>>
      match response with
      | Resolved roast =>
          postMessage (MsgRoast (fileName document) roast) >>>
          createRoastPanel roast
      | Rejected error =>
          postMessage (MsgError "Roast" (err_message error)) >>>
          showErrorMessage ("Roast Failed: " +:+ err_message error)
      end
  end.

Definition securityScan (config : Config) (editor : option TextDocument)
    (response : Settled (list CodeFix)) : Effect :=
  match editor with
  | None => showErrorMessage "No active editor found."
  | Some document =>
      postMessage (MsgLoading "Security Scan" (fileName document)) >>>
      match response with
      | Resolved reviews => fun st =>
          let existing := getDiagnostics st (uri document) in
          let kept :=
            List.filter (fun d => negb (JsString.includes "[SECURITY]" (message d))) existing in
          let newDiags := map securityDiagnostic reviews in
          (setDiagnostics (uri document) (kept ++ newDiags) >>>
           postMessage (MsgResult "Security Scan" (fileName document) reviews (length reviews)) >>>
           (if Nat.eqb (length reviews) 0
            then showInformationMessage "DevSentinel: No security issues found!"
            else showWarningMessage
                   ("DevSentinel: Found " +:+ JsString.ofNat (length reviews)
                      +:+ " security issue(s)."))) st
      | Rejected error =>
          postMessage (MsgError "Security Scan" (err_message error)) >>>
          (if isCode "ECONNREFUSED" error then
             showErrorMessage "DevSentinel: Could not connect to backend. Is it running?"
           else if isCode "ECONNABORTED" error then
             showErrorMessage "DevSentinel: Security scan timed out."
           else showErrorMessage ("DevSentinel Security Scan Error: " +:+ err_message error))
      end
  end.

Definition complexityCmd (config : Config) (editor : option TextDocument)
    (response : Settled ComplexityData) : Effect :=
  match editor with
  | None => showErrorMessage "No active editor found."
  | Some document =>
      postMessage (MsgLoading "Complexity" (fileName document)) >>>
      match response with
      | Resolved data => fun st =>
          let functions := functions data in
          let threshold := threshold data in
          let existing := getDiagnostics st (uri document) in
          let kept :=
            List.filter (fun d => negb (JsString.includes "[COMPLEXITY]" (message d))) existing in
          let complexFunctions := List.filter is_complex functions in
          let newDiags := map (complexityDiagnostic threshold) complexFunctions in
          (setDiagnostics (uri document) (kept ++ newDiags) >>>
           postMessage (MsgComplexity (fileName document) functions threshold
                          (length complexFunctions)) >>>
           (if Nat.eqb (length complexFunctions) 0
            then showInformationMessage
                   ("DevSentinel: All " +:+ JsString.ofNat (length functions)
                      +:+ " function(s) within threshold.")
            else showWarningMessage
                   ("DevSentinel: " +:+ JsString.ofNat (length complexFunctions) +:+ " of "
                      +:+ JsString.ofNat (length functions)
                      +:+ " function(s) exceed complexity threshold."))) st
      | Rejected error =>
          postMessage (MsgError "Complexity" (err_message error)) >>>
          (if isCode "ECONNREFUSED" error then
             showErrorMessage "DevSentinel: Could not connect to backend. Is it running?"
           else if isCode "ECONNABORTED" error then
             showErrorMessage "DevSentinel: Complexity analysis timed out."
           else showErrorMessage ("DevSentinel Complexity Error: " +:+ err_message error))
      end
  end.

(** ** Code action provider *)

(** One [replace] entry of a [vscode.WorkspaceEdit]. *)
Record TextEdit : Type := mkTextEdit {
  edit_uri : string;
  edit_range : Range;
  newText : string
}.

(** A quick-fix [vscode.CodeAction]; [edit] stays [undefined] unless a
    workspace edit is attached. *)
Record CodeAction : Type := mkCodeAction {
  title : string;
  edit : option (list TextEdit);
  ca_diagnostics : list Diagnostic;
  isPreferred : bool
}.

Definition createFix (document : TextDocument) (diagnostic : Diagnostic) : CodeAction :=
  let fixedCode := code diagnostic in
  mkCodeAction
    ("Apply Fix: " +:+ message diagnostic)
    (if JsString.truthy fixedCode
     then Some [mkTextEdit (uri document) (range diagnostic)
                  (JsString.stripTrailingLineBreaks (default EmptyString fixedCode))]
     else None)
    [diagnostic]
    true.

Definition isDevSentinel (diagnostic : Diagnostic) : bool :=
  match source diagnostic with
  | Some s => String.eqb s "DevSentinel"
  | None => false
  end.

Definition provideCodeActions (document : TextDocument) (context_diagnostics : list Diagnostic)
    : list CodeAction :=
  map (createFix document) (List.filter isDevSentinel context_diagnostics).

(** ** The legacy (diff-based) extension entry point *)

Module Legacy.

Definition reviewDiagnostic (review : CodeFix) : Diagnostic :=
  let lineIndex := line_number review - 1 in
  let range := newRange lineIndex 0 lineIndex Number_MAX_VALUE in
  let diagnostic := newDiagnostic range ("DevSentinel: " +:+ suggestion review) Warning in
  set_code (fixed_code review) (set_source "DevSentinel" diagnostic).

Definition createFixScan (document : TextDocument) (diagnostic : Diagnostic) : CodeAction :=
  let fixedCode := code diagnostic in
  mkCodeAction
    ("Apply Fix: " +:+ message diagnostic)
    (if JsString.truthy fixedCode
     then Some [mkTextEdit (uri document) (range diagnostic)
                  (default EmptyString fixedCode +:+ String "010"%char EmptyString)]
     else None)
    [diagnostic]
    true.

End Legacy.

(** ** The editing surface

    A document buffer is its list of line texts.  The editor applies a
    replace edit after clamping each column of the range to the length of
    its line; only edits whose range starts and ends on one existing line
    are modelled. *)

Definition clampColumn (text : string) (c : Z) : nat :=
  Z.to_nat (Z.min (Z.max c 0) (Z.of_nat (String.length text))).

Definition replaceColumns (text : string) (sc ec : Z) (new : string) : string :=
  let s := clampColumn text sc in
  let e := clampColumn text ec in
  substring 0 s text +:+ new +:+ substring e (String.length text - e) text.

Definition applyTextEdit (buffer : list string) (e : TextEdit) : option (list string) :=
  let r := edit_range e in
  let l := line (range_start r) in
  if Z.eqb l (line (range_end r)) && Z.leb 0 l then
    match buffer !! Z.to_nat l with
    | Some text =>
        Some (<[Z.to_nat l :=
                 replaceColumns text (character (range_start r)) (character (range_end r))
                                (newText e)]> buffer)
    | None => None
    end
  else None.

(** ** Categories of annotations

    The extension stores no category on a diagnostic; the handlers tell
    categories apart by the marker in the message. *)

Inductive Category : Type :=
| Plain
| Security
| Complexity.

Definition hasMarker (marker : string) (d : Diagnostic) : bool :=
  JsString.includes marker (message d).

Definition inCategory (c : Category) (d : Diagnostic) : bool :=
  match c with
  | Security => hasMarker "[SECURITY]" d
  | Complexity => hasMarker "[COMPLEXITY]" d
  | Plain => negb (hasMarker "[SECURITY]" d) && negb (hasMarker "[COMPLEXITY]" d)
  end.

(** ** Activation *)

(** The state [activate] leaves behind; [probe] is the outcome of its
    initial connection check. *)
Definition activate (config : Config) (probe : bool) : ExtState :=
  checkBackendConnection config probe
    (mkExtState ∅ ["DevSentinel is now active!"]
                (mkStatusBar "$(shield) DevSentinel" EmptyString false) [] [] []).

(** ** Sample inputs *)

Module Scenario.

Definition config : Config := mkConfig None (Some 300000%Q).

Definition document : TextDocument :=
  mkTextDocument "file:///srv/app/handlers.py" "handlers.py" "import os".

Definition buffer : list string :=
  ["import os"; "def run(x):"; "    q = 'select ' + x"; "    cur.execute(q)";
   "    return eval(x)"; "# end"].

Definition evalComment : CodeFix :=
  mkCodeFix 5 (Some "error") "avoid eval" (Some "safeEval(x)").

Definition sqlFinding : CodeFix :=
  mkCodeFix 3 None "SQL built by concatenation" (Some "    q = 'select ?'").


Definition lineBreakOnly : CodeFix :=
  mkCodeFix 4 None "drop this call" (Some (String "010"%char EmptyString)).

Definition foo : FunctionInfo := mkFunctionInfo "foo" 2 15 true.
Definition bar : FunctionInfo := mkFunctionInfo "bar" 9 3 false.

Definition complexityResponse : ComplexityData := mkComplexityData [foo; bar] 10.

End Scenario.

(** ** Further string primitives *)

Module JsText.

(** [Some rest] when [s] is [needle] followed by [rest]. *)
Fixpoint stripPrefix (needle s : string) : option string :=
  match needle, s with
  | EmptyString, _ => Some s
  | String a n', String b s' => if Ascii.eqb a b then stripPrefix n' s' else None
  | String _ _, EmptyString => None
  end.

(** [s.replace(needle, '')] with a string pattern: the first occurrence of
    [needle], if any, is removed. *)
Fixpoint removeFirst (needle s : string) : string :=
  match stripPrefix needle s with
  | Some rest => rest
  | None =>
      match s with
      | EmptyString => EmptyString
      | String c s' => String c (removeFirst needle s')
      end
  end.

(** [s.replace(/c/g, rep)] for a one-character pattern. *)
Fixpoint replaceAllChar (c : ascii) (rep : string) (s : string) : string :=
  match s with
  | EmptyString => EmptyString
  | String a s' =>
      if Ascii.eqb a c then rep +:+ replaceAllChar c rep s'
      else String a (replaceAllChar c rep s')
  end.

(** The character [c] occurs in [s]. *)
Fixpoint occurs (c : ascii) (s : string) : bool :=
  match s with
  | EmptyString => false
  | String a s' => Ascii.eqb a c || occurs c s'
  end.

Definition byteIs (c : ascii) (n : nat) : bool := Nat.eqb (nat_of_ascii c) n.

(** White space and line terminators below U+0080: TAB, LF, VT, FF, CR,
    SP. *)
Definition isAsciiWhiteSpace (c : ascii) : bool :=
  byteIs c 9 || byteIs c 10 || byteIs c 11 || byteIs c 12 || byteIs c 13 || byteIs c 32.

(** The three-byte encodings of U+1680, U+2000..U+200A, U+2028, U+2029,
    U+202F, U+205F, U+3000 and U+FEFF. *)
Definition isWideWhiteSpace (c1 c2 c3 : ascii) : bool :=
  (byteIs c1 225 && byteIs c2 154 && byteIs c3 128) ||
  (byteIs c1 226 && byteIs c2 128 &&
     ((Nat.leb 128 (nat_of_ascii c3) && Nat.leb (nat_of_ascii c3) 138) ||
      byteIs c3 168 || byteIs c3 169 || byteIs c3 175)) ||
  (byteIs c1 226 && byteIs c2 129 && byteIs c3 159) ||
  (byteIs c1 227 && byteIs c2 128 && byteIs c3 128) ||
  (byteIs c1 239 && byteIs c2 187 && byteIs c3 191).

(** [s.trim().length === 0]: the text, read as UTF-8, consists of white
    space and line terminators only (U+00A0 is the two bytes 194 160). *)
Fixpoint isBlank (s : string) : bool :=
  match s with
  | EmptyString => true
  | String c1 s1 =>
      if isAsciiWhiteSpace c1 then isBlank s1
      else
        match s1 with
        | EmptyString => false
        | String c2 s2 =>
            if byteIs c1 194 && byteIs c2 160 then isBlank s2
            else
              match s2 with
              | EmptyString => false
              | String c3 s3 => if isWideWhiteSpace c1 c2 c3 then isBlank s3 else false
              end
        end
  end.

End JsText.

(** ** HTML escaping *)

Definition escapeHtml (text : string) : string :=
  JsText.replaceAllChar "'"%char "&#039;"
    (JsText.replaceAllChar "034"%char "&quot;"
       (JsText.replaceAllChar ">"%char "&gt;"
          (JsText.replaceAllChar "<"%char "&lt;"
             (JsText.replaceAllChar "&"%char "&amp;" text)))).

(** The fragment [getRoastHtml] places inside the paragraph of the roast
    panel: [escapeHtml(roast).replace(/\n/g, '<br>')]. *)
Definition safeRoast (roast : string) : string :=
  JsText.replaceAllChar "010"%char "<br>" (escapeHtml roast).

(** Reference for [escapeHtml]: the entity that stands for one character. *)
Definition entityOf (c : ascii) : string :=
  if Ascii.eqb c "&"%char then "&amp;"
  else if Ascii.eqb c "<"%char then "&lt;"
  else if Ascii.eqb c ">"%char then "&gt;"
  else if Ascii.eqb c "034"%char then "&quot;"
  else if Ascii.eqb c "'"%char then "&#039;"
  else String c EmptyString.

(** Reference for [escapeHtml]: one left-to-right pass. *)
Fixpoint escapeOnePass (text : string) : string :=
  match text with
  | EmptyString => EmptyString
  | String c t => entityOf c +:+ escapeOnePass t
  end.

(** ** Hover provider *)

Inductive MarkdownSegment : Type :=
| MdText (value : string)
| MdCodeblock (codeText language : string).

(** A [vscode.MarkdownString] as the sequence of its appended pieces. *)
Record MarkdownString : Type := mkMarkdownString {
  isTrusted : bool;
  segments : list MarkdownSegment
}.

Definition LF : string := String "010"%char EmptyString.

Definition severityLabel (s : DiagnosticSeverity) : string :=
  match s with
  | Error => "Error"
  | Information => "Info"
  | Hint => "Hint"
  | Warning => "Warning"
  end.

(** The message with the product prefixes replaced by nothing, in the
    order the hover provider chains its three [replace] calls. *)
Definition hoverMessage (m : string) : string :=
  JsText.removeFirst "[COMPLEXITY] DevSentinel: "
    (JsText.removeFirst "[SECURITY] DevSentinel: "
       (JsText.removeFirst "DevSentinel: " m)).

(** [fixedCode && fixedCode.trim().length > 0] *)
Definition showsRecommendedFix (diag : Diagnostic) : bool :=
  JsString.truthy (code diag) && negb (JsText.isBlank (default EmptyString (code diag))).

Definition hoverPart (languageId : string) (diag : Diagnostic) : MarkdownString :=
  mkMarkdownString true
    ([MdText ("**DevSentinel** — " +:+ severityLabel (severity diag) +:+ LF +:+ LF);
      MdText (hoverMessage (message diag) +:+ LF +:+ LF)]
     ++ (if showsRecommendedFix diag
         then [MdText ("**Recommended fix:**" +:+ LF);
               MdCodeblock (default EmptyString (code diag)) languageId]
         else [])).

Definition onLine (l : Z) (d : Diagnostic) : bool :=
  isDevSentinel d && Z.eqb (line (range_start (range d))) l.

(** [provideHover]; [None] is the [null] result, [Some parts] the hover
    built from [parts]. *)
Definition provideHover (st : ExtState) (document : TextDocument) (languageId : string)
    (position : Position) : option (list MarkdownString) :=
  match diagnosticCollection st !! uri document with
  | None => None
  | Some diagnostics =>
      if Nat.eqb (length diagnostics) 0 then None
      else
        let lineDiags := List.filter (onLine (line position)) diagnostics in
        if Nat.eqb (length lineDiags) 0 then None
        else Some (map (hoverPart languageId) lineDiags)
  end.

(** ** Commands as the host dispatches them *)

(** The [devsentinel.checkConnection] command. *)
Definition checkConnection (config : Config) (probe : bool) : Effect :=
  checkBackendConnection config probe >>> postMessage (MsgStatus probe).

(** One command invocation together with what the environment answers. *)
Inductive Command : Type :=
| CmdReview (editor : option TextDocument) (response : Settled (list CodeFix)) (probe : bool)
| CmdRoast (editor : option TextDocument) (response : Settled string)
| CmdSecurityScan (editor : option TextDocument) (response : Settled (list CodeFix))
| CmdComplexity (editor : option TextDocument) (response : Settled ComplexityData)
| CmdCheckConnection (probe : bool).

Definition execute (config : Config) (c : Command) : Effect :=
  match c with
  | CmdReview editor response probe => review config editor response probe
  | CmdRoast editor response => roast config editor response
  | CmdSecurityScan editor response => securityScan config editor response
  | CmdComplexity editor response => complexityCmd config editor response
  | CmdCheckConnection probe => checkConnection config probe
  end.

(** Commands run one after the other. *)
Definition run (config : Config) (commands : list Command) : Effect :=
  fun st => fold_left (fun s c => execute config c s) commands st.

(** ** The legacy review command *)

Module LegacyCommand.

(** How the [git diff] child process ended. *)
Inductive ExecResult : Type :=
| ExecFailed (stderr : string)
| ExecDone (stdout : string).

(** [getGitDiff]: a failing git resolves to the empty diff. *)
Definition getGitDiff (r : ExecResult) : string :=
  match r with
  | ExecFailed _ => EmptyString
  | ExecDone stdout => stdout
  end.



(** The legacy [devsentinel.review] handler.  Its console output and the
    progress indicator are outside the modelled state. *)
Definition review (editor : option TextDocument) (git : ExecResult)
    (response : Settled (list CodeFix)) : Effect :=
  match editor with
  | None => showErrorMessage "No active editor found."
  | Some document =>
      let diff := getGitDiff git in
      if negb (JsString.truthy (Some diff))
      then showInformationMessage "No changes detected (git diff is empty)."
      else
        match response with
        | Resolved reviews =>
            let diagnostics := map Legacy.reviewDiagnostic reviews in
            setDiagnostics (uri document) diagnostics >>>
            (if Nat.eqb (length reviews) 0
             then showInformationMessage "DevSentinel: Code looks good! No issues found."
             else showInformationMessage
                    ("DevSentinel: Found " +:+ JsString.ofNat (length reviews) +:+ " issues."))
        | Rejected error => showErrorMessage ("DevSentinel Error: " +:+ err_message error)
        end
  end.

End LegacyCommand.

(** ** Vocabulary for statements about commands *)

(** The document a command runs on, if an editor is active. *)
Definition targetUri (c : Command) : option string :=
  match c with
  | CmdReview editor _ _ | CmdRoast editor _
  | CmdSecurityScan editor _ | CmdComplexity editor _ => uri <$> editor
  | CmdCheckConnection _ => None
  end.

(** The invocations that reach a [diagnosticCollection.set]. *)
Definition writesLedger (c : Command) : bool :=
  match c with
  | CmdReview (Some _) (Resolved _) _ => true
  | CmdSecurityScan (Some _) (Resolved _) => true
  | CmdComplexity (Some _) (Resolved _) => true
  | _ => false
  end.




(** A diagnostic shaped like the ones the handlers build: own source,
    anchored on one whole line, product prefix in the message. *)
Definition handlerShaped (d : Diagnostic) : Prop :=
  source d = Some "DevSentinel" /\
  range d = newRange (line (range_start (range d))) 0
                     (line (range_start (range d))) Number_MAX_VALUE /\
  JsString.Contains "DevSentinel: " (message d).

(** Reference for [safeRoast]: what one character of the roast becomes. *)
Definition roastPieceOf (c : ascii) : string :=
  if Ascii.eqb c "010"%char then "<br>" else entityOf c.

Fixpoint roastOnePass (roast : string) : string :=
  match roast with
  | EmptyString => EmptyString
  | String c t => roastPieceOf c +:+ roastOnePass t
  end.

(** ** Further sample inputs *)

Module Samples.

Definition critical : CodeFix :=
  mkCodeFix 7 (Some "critical") "hard-coded credential" (Some "token = os.environ['TOKEN']").

Definition blankFix : CodeFix :=
  mkCodeFix 4 None "drop this call" (Some " ").

Definition foreign : Diagnostic :=
  mkDiagnostic (newRange 0 0 0 5) "unused import" Warning (Some "pylint") None.

End Samples.

(** * Properties *)

(** ** String primitives *)

Section StringFacts.

Import JsString.

Lemma startsWith_spec (needle hay : string) :
  startsWith needle hay = true <-> exists post, hay = needle +:+ post.
Proof.
  revert hay. induction needle as [|a n IH]; intros hay; simpl.
  - split; [intros _; by exists hay | done].
  - destruct hay as [|b h].
    + split; [done | intros [post Hp]; discriminate].
    + destruct (Ascii.eqb_spec a b) as [->|Hne].
      * rewrite IH. split; intros [post Hp]; exists post; [by rewrite Hp | by injection Hp].
      * split; [done | intros [post Hp]; injection Hp; congruence].
Qed.

Lemma includes_spec (needle hay : string) :
  includes needle hay = true <-> Contains needle hay.
Proof.
  unfold Contains. induction hay as [|b h IH]; simpl.
  - rewrite orb_false_r, startsWith_spec. split.
    + intros [post Hp]. by exists EmptyString, post.
    + intros ([|c pre] & post & Hp); [by exists post | discriminate].
  - rewrite orb_true_iff, startsWith_spec, IH. split.
    + intros [[post Hp] | (pre & post & Hp)].
      * by exists EmptyString, post.
      * exists (String b pre), post. simpl. by rewrite Hp.
    + intros ([|c pre] & post & Hp).
      * left. by exists post.
      * right. simpl in Hp. injection Hp as _ Hp. by exists pre, post.
Qed.

Lemma append_empty_r (s : string) : s +:+ EmptyString = s.
Proof.
  induction s as [|c s IH]; [done |].
  change (String c (s +:+ EmptyString) = String c s). by f_equal.
Qed.

Lemma append_assoc (a b c : string) : (a +:+ b) +:+ c = a +:+ b +:+ c.
Proof.
  induction a as [|x a IH]; [done |].
  change (String x ((a +:+ b) +:+ c) = String x (a +:+ b +:+ c)). by f_equal.
Qed.



Lemma substring_nothing (n : nat) (s : string) : substring n 0 s = EmptyString.
Proof. revert s. induction n as [|n IH]; intros [|c s]; simpl; auto. Qed.


Lemma includes_append_l (needle post : string) :
  includes needle (needle +:+ post) = true.
Proof. apply includes_spec. by exists EmptyString, post. Qed.

Lemma allLineBreaks_last (s : string) (c : ascii) :
  allLineBreaks s = true -> lastChar s = Some c -> isLineBreak c = true.
Proof.
  induction s as [|a s IH]; [done |].
  simpl allLineBreaks. rewrite andb_true_iff. intros [Ha Hs].
  destruct s as [|b s']; simpl.
  - by intros [= <-].
  - intros Hl. by apply IH.
Qed.

(** Stripping splits the string into the result and a run of line breaks,
    and the result does not end in a line break. *)
Lemma stripTrailingLineBreaks_spec (s : string) :
  (exists tail, s = stripTrailingLineBreaks s +:+ tail /\ allLineBreaks tail = true) /\
  (forall c, lastChar (stripTrailingLineBreaks s) = Some c -> isLineBreak c = false).
Proof.
  induction s as [|a s [(tail & Hs & Ht) Hlast]].
  - split; [by exists EmptyString | done].
  - cbn [stripTrailingLineBreaks].
    destruct (allLineBreaks (String a s)) eqn:Hall.
    + split; [by exists (String a s) | done].
    + split.
      * exists tail. split; [| done].
        change (String a s = String a (stripTrailingLineBreaks s +:+ tail)).
        by f_equal.
      * intros c. destruct (stripTrailingLineBreaks s) as [|b r] eqn:Hr.
        -- simpl. intros [= <-]. change (s = tail) in Hs. subst s.
           cbn [allLineBreaks] in Hall. by rewrite Ht, andb_true_r in Hall.
        -- intros Hc. apply Hlast. exact Hc.
Qed.

Lemma stripTrailingLineBreaks_no_break (s : string) :
  allLineBreaks s = false ->
  (forall c, lastChar s = Some c -> isLineBreak c = false) ->
  stripTrailingLineBreaks s = s.
Proof.
  induction s as [|a s IH]; [done |].
  intros Hall Hlast. cbn [stripTrailingLineBreaks]. rewrite Hall. f_equal.
  destruct s as [|b s']; [done |].
  apply IH.
  - destruct (allLineBreaks (String b s')) eqn:Hb; [| done].
    destruct (lastChar (String b s')) as [c|] eqn:Hc.
    + pose proof (allLineBreaks_last _ _ Hb Hc) as Hbr.
      rewrite (Hlast c) in Hbr; [done | exact Hc].
    + exfalso. clear -Hc. revert b Hc. induction s' as [|x s' IHs]; intros b; [done |].
      intros Hc. by apply (IHs x).
  - intros c Hc. apply Hlast. exact Hc.
Qed.

End StringFacts.

(** ** Effects and the diagnostic collection *)

Section LedgerFrame.

Implicit Types (st : ExtState) (u : string) (ds : list Diagnostic).

Lemma dc_appendLine l st :
  diagnosticCollection (appendLine l st) = diagnosticCollection st.
Proof. reflexivity. Qed.

Lemma dc_setStatusBar sb st :
  diagnosticCollection (setStatusBar sb st) = diagnosticCollection st.
Proof. reflexivity. Qed.

Lemma dc_postMessage m st :
  diagnosticCollection (postMessage m st) = diagnosticCollection st.
Proof. reflexivity. Qed.

Lemma dc_notify k t st :
  diagnosticCollection (notify k t st) = diagnosticCollection st.
Proof. reflexivity. Qed.

Lemma dc_createRoastPanel r st :
  diagnosticCollection (createRoastPanel r st) = diagnosticCollection st.
Proof. reflexivity. Qed.

Lemma dc_checkBackendConnection config online st :
  diagnosticCollection (checkBackendConnection config online st) = diagnosticCollection st.
Proof. by destruct online. Qed.

Lemma dc_setDiagnostics u ds st :
  diagnosticCollection (setDiagnostics u ds st) = <[u := ds]> (diagnosticCollection st).
Proof. reflexivity. Qed.

Lemma dc_andThen (f g : Effect) st :
  diagnosticCollection ((f >>> g) st) = diagnosticCollection (g (f st)).
Proof. reflexivity. Qed.

Lemma getDiagnostics_set_eq u ds st :
  getDiagnostics (setDiagnostics u ds st) u = ds.
Proof. unfold getDiagnostics. by rewrite dc_setDiagnostics, lookup_insert_eq. Qed.

Lemma getDiagnostics_set_ne u u' ds st :
  u <> u' -> getDiagnostics (setDiagnostics u ds st) u' = getDiagnostics st u'.
Proof. intros Hne. unfold getDiagnostics. by rewrite dc_setDiagnostics, lookup_insert_ne. Qed.

End LedgerFrame.

Ltac unfold_notifications :=
  unfold showInformationMessage, showWarningMessage, showErrorMessage.

(** Push [diagnosticCollection] through a chain of effects that do not
    write it. *)
Ltac ledger_frame :=
  unfold_notifications;
  repeat first
    [ rewrite dc_andThen
    | rewrite dc_appendLine
    | rewrite dc_setStatusBar
    | rewrite dc_postMessage
    | rewrite dc_notify
    | rewrite dc_createRoastPanel
    | rewrite dc_checkBackendConnection ];
  try reflexivity.

(** ** What each handler leaves in the collection *)

Section HandlerResults.

Variables (config : Config) (document : TextDocument).
Implicit Types (st : ExtState) (reviews : list CodeFix) (error : AxiosError).

Lemma review_failure_ledger error probe st :
  diagnosticCollection (review config (Some document) (Rejected error) probe st)
  = diagnosticCollection st.
Proof.
  unfold review. destruct (isCode "ECONNREFUSED" error), (isCode "ECONNABORTED" error);
    ledger_frame.
Qed.

Lemma securityScan_failure_ledger error st :
  diagnosticCollection (securityScan config (Some document) (Rejected error) st)
  = diagnosticCollection st.
Proof.
  unfold securityScan.
  destruct (isCode "ECONNREFUSED" error), (isCode "ECONNABORTED" error); ledger_frame.
Qed.

Lemma complexity_failure_ledger error st :
  diagnosticCollection (complexityCmd config (Some document) (Rejected error) st)
  = diagnosticCollection st.
Proof.
  unfold complexityCmd.
  destruct (isCode "ECONNREFUSED" error), (isCode "ECONNABORTED" error); ledger_frame.
Qed.

Lemma roast_ledger response st :
  diagnosticCollection (roast config (Some document) response st) = diagnosticCollection st.
Proof. unfold roast. destruct response; ledger_frame. Qed.

Lemma review_success_ledger reviews probe st :
  diagnosticCollection (review config (Some document) (Resolved reviews) probe st)
  = <[uri document := map reviewDiagnostic reviews]> (diagnosticCollection st).
Proof. unfold review. destruct (Nat.eqb (length reviews) 0); ledger_frame. Qed.

Lemma securityScan_success_ledger reviews st :
  diagnosticCollection (securityScan config (Some document) (Resolved reviews) st)
  = <[uri document :=
        (List.filter (fun d => negb (hasMarker "[SECURITY]" d)) (getDiagnostics st (uri document))
         ++ map securityDiagnostic reviews)%list]> (diagnosticCollection st).
Proof.
  unfold securityScan. rewrite dc_andThen.
  destruct (Nat.eqb (length reviews) 0); ledger_frame.
Qed.

Lemma complexity_success_ledger data st :
  diagnosticCollection (complexityCmd config (Some document) (Resolved data) st)
  = <[uri document :=
        (List.filter (fun d => negb (hasMarker "[COMPLEXITY]" d)) (getDiagnostics st (uri document))
         ++ map (complexityDiagnostic (threshold data))
                (List.filter is_complex (functions data)))%list]>
      (diagnosticCollection st).
Proof.
  unfold complexityCmd. rewrite dc_andThen.
  destruct (Nat.eqb (length (List.filter is_complex (functions data))) 0); ledger_frame.
Qed.

Lemma review_success_get reviews probe st :
  getDiagnostics (review config (Some document) (Resolved reviews) probe st) (uri document)
  = map reviewDiagnostic reviews.
Proof.
  unfold getDiagnostics at 1. by rewrite review_success_ledger, lookup_insert_eq.
Qed.

Lemma securityScan_success_get reviews st :
  getDiagnostics (securityScan config (Some document) (Resolved reviews) st) (uri document)
  = (List.filter (fun d => negb (hasMarker "[SECURITY]" d)) (getDiagnostics st (uri document))
     ++ map securityDiagnostic reviews)%list.
Proof.
  unfold getDiagnostics at 1. by rewrite securityScan_success_ledger, lookup_insert_eq.
Qed.

Lemma complexity_success_get data st :
  getDiagnostics (complexityCmd config (Some document) (Resolved data) st) (uri document)
  = (List.filter (fun d => negb (hasMarker "[COMPLEXITY]" d)) (getDiagnostics st (uri document))
     ++ map (complexityDiagnostic (threshold data))
            (List.filter is_complex (functions data)))%list.
Proof.
  unfold getDiagnostics at 1. by rewrite complexity_success_ledger, lookup_insert_eq.
Qed.

End HandlerResults.

(** ** Category-scoped replacement *)

Section CategoryFrame.

Variables (config : Config) (document : TextDocument).
Implicit Types (st : ExtState) (reviews : list CodeFix).

Lemma filter_filter_same {A} (p : A -> bool) (l : list A) :
  List.filter p (List.filter p l) = List.filter p l.
Proof.
  induction l as [|x l IH]; [done |]. simpl.
  destruct (p x) eqn:Hp; simpl; rewrite ?Hp, IH; done.
Qed.

Lemma filter_refines {A} (p q : A -> bool) (l : list A) :
  (forall x, p x = true -> q x = true) ->
  List.filter p (List.filter q l) = List.filter p l.
Proof.
  intros Hpq. induction l as [|x l IH]; [done |]. simpl.
  destruct (q x) eqn:Hq; simpl.
  - by rewrite IH.
  - destruct (p x) eqn:Hp; [| done]. apply Hpq in Hp. congruence.
Qed.

Lemma filter_none {A} (p : A -> bool) (l : list A) :
  (forall x, In x l -> p x = false) -> List.filter p l = [].
Proof.
  induction l as [|x l IH]; [done |]. intros H. simpl.
  rewrite (H x) by (by left). apply IH. intros y Hy. apply H. by right.
Qed.

Lemma securityDiagnostic_marked (r : CodeFix) :
  hasMarker "[SECURITY]" (securityDiagnostic r) = true.
Proof.
  unfold hasMarker.
  change (message (securityDiagnostic r))
    with ("[SECURITY]" +:+ (" DevSentinel: " +:+ suggestion r)).
  apply includes_append_l.
Qed.

Lemma complexityDiagnostic_marked (thr : Z) (f : FunctionInfo) :
  hasMarker "[COMPLEXITY]" (complexityDiagnostic thr f) = true.
Proof.
  unfold hasMarker.
  change (message (complexityDiagnostic thr f))
    with ("[COMPLEXITY]" +:+ (" DevSentinel: Function '" +:+ name f
            +:+ "' has cyclomatic complexity of " +:+ JsString.ofZ (complexity f)
            +:+ " (threshold: " +:+ JsString.ofZ thr +:+ ")")).
  apply includes_append_l.
Qed.

(** A security scan keeps, in order and unchanged, every annotation whose
    message lacks the security marker. *)
Lemma securityScan_keeps_unmarked reviews st :
  List.filter (fun d => negb (hasMarker "[SECURITY]" d))
    (getDiagnostics (securityScan config (Some document) (Resolved reviews) st) (uri document))
  = List.filter (fun d => negb (hasMarker "[SECURITY]" d)) (getDiagnostics st (uri document)).
Proof.
  rewrite securityScan_success_get, List.filter_app, filter_filter_same.
  rewrite (filter_none _ (map securityDiagnostic reviews)); [by rewrite app_nil_r |].
  intros d [r [<- _]]%in_map_iff. by rewrite securityDiagnostic_marked.
Qed.

(** A complexity run keeps, in order and unchanged, every annotation whose
    message lacks the complexity marker. *)
Lemma complexity_keeps_unmarked data st :
  List.filter (fun d => negb (hasMarker "[COMPLEXITY]" d))
    (getDiagnostics (complexityCmd config (Some document) (Resolved data) st) (uri document))
  = List.filter (fun d => negb (hasMarker "[COMPLEXITY]" d)) (getDiagnostics st (uri document)).
Proof.
  rewrite complexity_success_get, List.filter_app, filter_filter_same.
  rewrite (filter_none _ (map _ _)); [by rewrite app_nil_r |].
  intros d [f [<- _]]%in_map_iff. by rewrite complexityDiagnostic_marked.
Qed.

(** Handlers only write the entry of their own document. *)
Lemma handlers_other_document u reviews data probe st :
  u <> uri document ->
  getDiagnostics (review config (Some document) (Resolved reviews) probe st) u
    = getDiagnostics st u /\
  getDiagnostics (securityScan config (Some document) (Resolved reviews) st) u
    = getDiagnostics st u /\
  getDiagnostics (complexityCmd config (Some document) (Resolved data) st) u
    = getDiagnostics st u.
Proof.
  intros Hne. unfold getDiagnostics.
  rewrite review_success_ledger, securityScan_success_ledger, complexity_success_ledger.
  by rewrite !lookup_insert_ne.
Qed.

End CategoryFrame.

(** What a security scan or a complexity run keeps includes every plain
    annotation. *)
Lemma siblings_preserve_plain
    (config : Config) (document : TextDocument) (reviews : list CodeFix)
    (data : ComplexityData) (st : ExtState) :
  List.filter (inCategory Plain)
    (getDiagnostics (securityScan config (Some document) (Resolved reviews) st) (uri document))
  = List.filter (inCategory Plain) (getDiagnostics st (uri document)) /\
  List.filter (inCategory Plain)
    (getDiagnostics (complexityCmd config (Some document) (Resolved data) st) (uri document))
  = List.filter (inCategory Plain) (getDiagnostics st (uri document)).
Proof.
  split.
  - rewrite <- (filter_refines (inCategory Plain) (fun d => negb (hasMarker "[SECURITY]" d)))
      by (intros d [H _]%andb_true_iff; exact H).
    rewrite securityScan_keeps_unmarked. apply filter_refines.
    by intros d [H _]%andb_true_iff.
  - rewrite <- (filter_refines (inCategory Plain) (fun d => negb (hasMarker "[COMPLEXITY]" d)))
      by (intros d [_ H]%andb_true_iff; exact H).
    rewrite complexity_keeps_unmarked. apply filter_refines.
    by intros d [_ H]%andb_true_iff.
Qed.

(** C1. The review handler does not scope its write to a category: it
    stores exactly the diagnostics of the new response.  After a security
    scan and a complexity run have filled the document's entry, a review
    run leaves neither the security nor the complexity annotation behind
    (the security and complexity handlers, by contrast, keep what they do
    not own: [securityScan_keeps_unmarked], [complexity_keeps_unmarked],
    [siblings_preserve_plain]). *)
Theorem review_discards_security_annotations :
  let u := uri Scenario.document in
  let st0 := activate Scenario.config true in
  let st1 := securityScan Scenario.config (Some Scenario.document)
               (Resolved [Scenario.sqlFinding]) st0 in
  let st2 := complexityCmd Scenario.config (Some Scenario.document)
               (Resolved Scenario.complexityResponse) st1 in
  let st3 := review Scenario.config (Some Scenario.document)
               (Resolved [Scenario.evalComment]) true st2 in
  getDiagnostics st2 u
    = [securityDiagnostic Scenario.sqlFinding; complexityDiagnostic 10 Scenario.foo] /\
  List.filter (inCategory Security) (getDiagnostics st2 u)
    = [securityDiagnostic Scenario.sqlFinding] /\
  List.filter (inCategory Complexity) (getDiagnostics st2 u)
    = [complexityDiagnostic 10 Scenario.foo] /\
  getDiagnostics st3 u = [reviewDiagnostic Scenario.evalComment] /\
  List.filter (inCategory Security) (getDiagnostics st3 u) = [] /\
  List.filter (inCategory Complexity) (getDiagnostics st3 u) = [] /\
  (forall config document reviews probe st,
      getDiagnostics (review config (Some document) (Resolved reviews) probe st) (uri document)
      = map reviewDiagnostic reviews).
Proof.
  cbv zeta.
  rewrite review_success_get, complexity_success_get, securityScan_success_get.
  split; [reflexivity |]. split; [reflexivity |]. split; [reflexivity |].
  split; [reflexivity |]. split; [reflexivity |]. split; [reflexivity |].
  intros. apply review_success_get.
Qed.

(** C2. When the backend call is rejected (connection refused, timed out
    or any other transport error), every handler leaves the whole
    diagnostic collection exactly as it was. *)
Theorem rejected_call_leaves_ledger_unchanged
    (config : Config) (editor : option TextDocument) (error : AxiosError)
    (probe : bool) (st : ExtState) :
  diagnosticCollection (review config editor (Rejected error) probe st)
    = diagnosticCollection st /\
  diagnosticCollection (securityScan config editor (Rejected error) st)
    = diagnosticCollection st /\
  diagnosticCollection (complexityCmd config editor (Rejected error) st)
    = diagnosticCollection st /\
  diagnosticCollection (roast config editor (Rejected error) st)
    = diagnosticCollection st.
Proof.
  destruct editor as [document|].
  - split; [| split; [| split]].
    + apply review_failure_ledger.
    + apply securityScan_failure_ledger.
    + apply complexity_failure_ledger.
    + apply roast_ledger.
  - by cbn.
Qed.

Lemma filter_after_complement {A} (p : A -> bool) (l : list A) :
  List.filter p (List.filter (fun x => negb (p x)) l) = [].
Proof.
  apply filter_none. intros x [_ Hx]%List.filter_In. by destruct (p x).
Qed.





(** ** Applying a fix on the editing surface *)

Lemma clampColumn_zero (text : string) : clampColumn text 0 = 0%nat.
Proof. unfold clampColumn. lia. Qed.

Lemma clampColumn_MAX_VALUE (text : string) :
  Z.of_nat (String.length text) <= Number_MAX_VALUE ->
  clampColumn text Number_MAX_VALUE = String.length text.
Proof. unfold clampColumn. lia. Qed.

(** Replacing columns 0 to [Number.MAX_VALUE] replaces the whole line. *)
Lemma replaceColumns_whole_line (text new : string) :
  Z.of_nat (String.length text) <= Number_MAX_VALUE ->
  replaceColumns text 0 Number_MAX_VALUE new = new.
Proof.
  intros Hlen. unfold replaceColumns.
  rewrite clampColumn_zero, (clampColumn_MAX_VALUE _ Hlen), Nat.sub_diag.
  rewrite !substring_nothing. apply append_empty_r.
Qed.

(** C6. For a diagnostic anchored on a line of the buffer and carrying a
    non-empty replacement, [createFix] attaches one edit over the whole
    anchored line whose text is the replacement without its trailing line
    breaks; applying it rewrites that line, and only that line, to the
    trimmed text. *)
Theorem createFix_rewrites_anchored_line
    (document : TextDocument) (d : Diagnostic) (anchorLine : Z) (c : ascii) (s : string)
    (buffer : list string) (text : string) :
  range d = newRange anchorLine 0 anchorLine Number_MAX_VALUE ->
  code d = Some (String c s) ->
  0 <= anchorLine ->
  buffer !! Z.to_nat anchorLine = Some text ->
  Z.of_nat (String.length text) <= Number_MAX_VALUE ->
  let replacement := JsString.stripTrailingLineBreaks (String c s) in
  edit (createFix document d) = Some [mkTextEdit (uri document) (range d) replacement] /\
  applyTextEdit buffer (mkTextEdit (uri document) (range d) replacement)
    = Some (<[Z.to_nat anchorLine := replacement]> buffer) /\
  (exists tail, String c s = replacement +:+ tail /\ JsString.allLineBreaks tail = true) /\
  (forall ch, JsString.lastChar replacement = Some ch -> JsString.isLineBreak ch = false).
Proof.
  intros Hrange Hcode Hpos Hline Hlen replacement.
  split; [| split].
  - unfold createFix. by rewrite Hcode.
  - unfold applyTextEdit. cbn [edit_range newText]. rewrite Hrange. cbn.
    rewrite Z.eqb_refl. cbn. destruct (Z.leb_spec 0 anchorLine) as [_|]; [| lia].
    rewrite Hline. by rewrite replaceColumns_whole_line.
  - apply stripTrailingLineBreaks_spec.
Qed.

Lemma createFix_rewrites_anchored_line_witness :
  edit (createFix Scenario.document (reviewDiagnostic Scenario.evalComment))
    = Some [mkTextEdit (uri Scenario.document) (newRange 4 0 4 Number_MAX_VALUE) "safeEval(x)"] /\
  applyTextEdit Scenario.buffer
      (mkTextEdit (uri Scenario.document) (newRange 4 0 4 Number_MAX_VALUE) "safeEval(x)")
    = Some ["import os"; "def run(x):"; "    q = 'select ' + x"; "    cur.execute(q)";
            "safeEval(x)"; "# end"].
Proof.
  pose proof (createFix_rewrites_anchored_line Scenario.document
                (reviewDiagnostic Scenario.evalComment) 4 "s"%char "afeEval(x)"
                Scenario.buffer "    return eval(x)"
                eq_refl eq_refl ltac:(lia) eq_refl ltac:(by vm_compute)) as (H1 & H2 & _).
  split; [exact H1 | exact H2].
Defined.

(** The legacy quick fix covers the same range but appends a line break to
    the stored text instead of trimming it. *)
Lemma Legacy_createFixScan_edit (document : TextDocument) (d : Diagnostic) (c : ascii) (s : string) :
  edit (Legacy.createFixScan document (set_code (Some (String c s)) d))
  = Some [mkTextEdit (uri document) (range d) (String c s +:+ String "010"%char EmptyString)].
Proof. reflexivity. Qed.

(** ** Timeouts *)




(** Without a configured value each request falls back to its own default. *)
Lemma default_timeouts (url : option string) :
  let config := mkConfig url None in
  (timeoutOf ReviewKind config == 90000)%Q /\
  (timeoutOf RoastKind config == 60000)%Q /\
  (timeoutOf SecurityScanKind config == 135000)%Q /\
  (timeoutOf ComplexityKind config == 60000)%Q.
Proof. by vm_compute. Qed.

(** ** Severities *)

(** C8. A finding without a severity becomes a [Warning] in a review, an
    [Error] in a security scan; complexity annotations are always
    [Warning]s.  A severity that is present is passed to [mapSeverity],
    which sends error, warning, info and hint to the matching levels. *)
Theorem severity_defaults_and_mapping
    (ln : Z) (sugg : string) (fc : option string) (thr : Z) (f : FunctionInfo)
    (c : ascii) (s : string) :
  severity (reviewDiagnostic (mkCodeFix ln None sugg fc)) = Warning /\
  severity (securityDiagnostic (mkCodeFix ln None sugg fc)) = Error /\
  severity (complexityDiagnostic thr f) = Warning /\
  severity (reviewDiagnostic (mkCodeFix ln (Some (String c s)) sugg fc))
    = mapSeverity (String c s) /\
  severity (securityDiagnostic (mkCodeFix ln (Some (String c s)) sugg fc))
    = mapSeverity (String c s) /\
  mapSeverity "error" = Error /\
  mapSeverity "warning" = Warning /\
  mapSeverity "info" = Information /\
  mapSeverity "hint" = Hint.
Proof. repeat split. Qed.

(** ** Complexity annotations *)



(** ** Eviction by marker *)



(** * Further properties of the extension *)

(** ** Severity mapping *)

(** [mapSeverity] answers [Error], [Information] and [Hint] for exactly
    one spelling each; every other text, whatever its case, is a
    [Warning]. *)
Theorem mapSeverity_exact (s : string) :
  (mapSeverity s = Error <-> s = "error") /\
  (mapSeverity s = Information <-> s = "info") /\
  (mapSeverity s = Hint <-> s = "hint") /\
  (mapSeverity s = Warning <-> s <> "error" /\ s <> "info" /\ s <> "hint").
Proof.
  unfold mapSeverity.
  destruct (String.eqb_spec s "error") as [->|He]; [repeat split; try done; intros; tauto |].
  destruct (String.eqb_spec s "warning") as [->|Hw]; [repeat split; done |].
  destruct (String.eqb_spec s "info") as [->|Hi]; [repeat split; try done; intros; tauto |].
  destruct (String.eqb_spec s "hint") as [->|Hh]; [repeat split; try done; intros; tauto |].
  repeat split; done.
Qed.

(** A security finding is stored as an [Error] exactly when its severity
    is missing, empty or spelled error; a review comment only when it is
    spelled error.  Any other spelling on a security finding, such as
    critical, is stored as a [Warning]. *)
Theorem stored_error_severity_iff (r : CodeFix) :
  (severity (securityDiagnostic r) = Error <->
     cf_severity r = None \/ cf_severity r = Some EmptyString \/ cf_severity r = Some "error") /\
  (severity (reviewDiagnostic r) = Error <-> cf_severity r = Some "error") /\
  (severity (securityDiagnostic r) = Warning <->
     exists s, cf_severity r = Some s /\ s <> EmptyString /\
               s <> "error" /\ s <> "info" /\ s <> "hint").
Proof.
  change (severity (securityDiagnostic r))
    with (mapSeverity (JsString.orElse (cf_severity r) "error")).
  change (severity (reviewDiagnostic r))
    with (mapSeverity (JsString.orElse (cf_severity r) "warning")).
  destruct (cf_severity r) as [[|c s]|]; cbn [JsString.orElse].
  - split; [| split].
    + split; [auto | reflexivity].
    + split; intros H; discriminate H.
    + split; [intros H; discriminate H |]. intros (x & Hx & Hne & _). congruence.
  - destruct (mapSeverity_exact (String c s)) as (H1 & _ & _ & H4).
    split; [| split].
    + rewrite H1. split; [intros ->; auto |]. intros [H | [H | H]]; congruence.
    + rewrite H1. split; congruence.
    + rewrite H4. split.
      * intros (? & ? & ?). by exists (String c s).
      * intros (x & Hx & _ & H). congruence.
  - split; [| split].
    + split; [auto | reflexivity].
    + split; intros H; discriminate H.
    + split; [intros H; discriminate H |]. intros (x & Hx & _). discriminate Hx.
Qed.

(** ** Timeouts *)

Lemma numberOr_nonzero (n : option Q) (dflt : Q) :
  ~ (dflt == 0)%Q -> ~ (numberOr n dflt == 0)%Q.
Proof.
  intros Hd. unfold numberOr. destruct n as [q|]; [| done].
  destruct (Qeq_bool q 0) eqn:Hq; [done |].
  intros Hz. apply Qeq_bool_iff in Hz. congruence.
Qed.

(** No request is ever sent with a zero timeout (which axios reads as no
    timeout at all): a [requestTimeout] of zero is treated like a missing
    one and replaced by the default of the request kind. *)
Theorem request_timeout_never_zero
    (kind : RequestKind) (url : option string) (t : option Q) (document : TextDocument) :
  ~ (req_timeout (request kind (mkConfig url t) document) == 0)%Q /\
  req_timeout (request kind (mkConfig url (Some 0%Q)) document)
    = req_timeout (request kind (mkConfig url None) document).
Proof.
  split; [| by destruct kind].
  unfold request, timeoutOf; cbn [req_timeout requestTimeout].
  destruct kind; try (apply numberOr_nonzero; by vm_compute).
  intros Hz. apply Qmult_integral in Hz as [Hz | Hz]; [| by vm_compute in Hz].
  revert Hz. apply numberOr_nonzero. by vm_compute.
Qed.

(** ** How runs of the handlers compose *)

Lemma filter_all {A} (p : A -> bool) (l : list A) :
  (forall x, In x l -> p x = true) -> List.filter p l = l.
Proof.
  induction l as [|x l IH]; [done |]. intros H. simpl.
  rewrite (H x) by (by left). f_equal. apply IH. intros y Hy. apply H. by right.
Qed.






(** ** What a command leaves alone *)

Lemma checkConnection_ledger (config : Config) (probe : bool) (st : ExtState) :
  diagnosticCollection (checkConnection config probe st) = diagnosticCollection st.
Proof. unfold checkConnection. ledger_frame. Qed.

Lemma non_writing_ledger (config : Config) (c : Command) (st : ExtState) :
  writesLedger c = false ->
  diagnosticCollection (execute config c st) = diagnosticCollection st.
Proof.
  destruct c as [[d|] [r|e] p | [d|] r | [d|] [r|e] | [d|] [r|e] | p];
    try discriminate; intros _; try reflexivity; cbn [execute].
  - apply review_failure_ledger.
  - apply roast_ledger.
  - apply securityScan_failure_ledger.
  - apply complexity_failure_ledger.
  - apply checkConnection_ledger.
Qed.

(** Only a resolved review, security scan or complexity call made with an
    active editor changes the diagnostic collection.  Any sequence of other
    invocations (no active editor, a rejected call, any roast, a connection
    check) leaves the whole collection as it was. *)
Theorem only_resolved_analyses_write_ledger
    (config : Config) (commands : list Command) (st : ExtState) :
  Forall (fun c => writesLedger c = false) commands ->
  diagnosticCollection (run config commands st) = diagnosticCollection st.
Proof.
  intros H. revert st. induction H as [|c cs Hc _ IH]; intros st; [done |].
  unfold run. cbn [fold_left]. fold (run config cs (execute config c st)).
  rewrite IH. by apply non_writing_ledger.
Qed.

Lemma only_resolved_analyses_write_ledger_witness :
  diagnosticCollection
    (run Scenario.config
       [CmdRoast (Some Scenario.document) (Resolved "This code needs a hug.");
        CmdReview None (Resolved [Scenario.evalComment]) true;
        CmdSecurityScan (Some Scenario.document)
          (Rejected (mkAxiosError (Some "ECONNABORTED") "timeout of 450000ms exceeded"
                       "Error: timeout of 450000ms exceeded"));
        CmdCheckConnection false]
       (securityScan Scenario.config (Some Scenario.document)
          (Resolved [Scenario.sqlFinding]) (activate Scenario.config true)))
  = diagnosticCollection
      (securityScan Scenario.config (Some Scenario.document)
         (Resolved [Scenario.sqlFinding]) (activate Scenario.config true)).
Proof.
  apply only_resolved_analyses_write_ledger. repeat constructor.
Defined.

Lemma execute_other_document (config : Config) (c : Command) (u : string) (st : ExtState) :
  targetUri c <> Some u ->
  getDiagnostics (execute config c st) u = getDiagnostics st u.
Proof.
  intros Hu.
  destruct (writesLedger c) eqn:Hw.
  - destruct c as [[d|] [r|e] p | [d|] r | [d|] [r|e] | [d|] [r|e] | p]; try discriminate;
      cbn [execute]; unfold getDiagnostics;
      rewrite ?review_success_ledger, ?securityScan_success_ledger, ?complexity_success_ledger;
      rewrite lookup_insert_ne; try done; intros Heq; apply Hu; cbn; by rewrite Heq.
  - unfold getDiagnostics. by rewrite non_writing_ledger.
Qed.

(** A sequence of commands never alters the annotations of a document
    other than the ones the commands were run on. *)
Theorem commands_leave_other_documents
    (config : Config) (commands : list Command) (u : string) (st : ExtState) :
  Forall (fun c => targetUri c <> Some u) commands ->
  getDiagnostics (run config commands st) u = getDiagnostics st u.
Proof.
  intros H. revert st. induction H as [|c cs Hc _ IH]; intros st; [done |].
  unfold run. cbn [fold_left]. fold (run config cs (execute config c st)).
  rewrite IH. by apply execute_other_document.
Qed.

Lemma commands_leave_other_documents_witness :
  getDiagnostics
    (run Scenario.config
       [CmdSecurityScan (Some Scenario.document) (Resolved [Scenario.sqlFinding]);
        CmdReview (Some Scenario.document) (Resolved []) true;
        CmdCheckConnection false]
       (activate Scenario.config true))
    "file:///srv/app/other.py"
  = getDiagnostics (activate Scenario.config true) "file:///srv/app/other.py".
Proof.
  apply commands_leave_other_documents.
  repeat constructor; cbn; discriminate.
Defined.

(** ** Sidebar protocol *)


(** ** An invariant of every reachable state *)

Lemma reviewDiagnostic_shaped (r : CodeFix) : handlerShaped (reviewDiagnostic r).
Proof. repeat split. by exists EmptyString, (suggestion r). Qed.

Lemma securityDiagnostic_shaped (r : CodeFix) : handlerShaped (securityDiagnostic r).
Proof. repeat split. by exists "[SECURITY] ", (suggestion r). Qed.

Lemma complexityDiagnostic_shaped (thr : Z) (f : FunctionInfo) :
  handlerShaped (complexityDiagnostic thr f).
Proof.
  repeat split.
  by exists "[COMPLEXITY] ",
    ("Function '" +:+ name f +:+ "' has cyclomatic complexity of "
       +:+ JsString.ofZ (complexity f) +:+ " (threshold: " +:+ JsString.ofZ thr +:+ ")").
Qed.

Lemma Forall_List_filter {A} (P : A -> Prop) (p : A -> bool) (l : list A) :
  Forall P l -> Forall P (List.filter p l).
Proof.
  induction 1 as [|x l Hx _ IH]; [constructor |]. simpl.
  destruct (p x); [by constructor | done].
Qed.

Lemma Forall_map_built {A} (P : Diagnostic -> Prop) (f : A -> Diagnostic) (l : list A) :
  (forall x, P (f x)) -> Forall P (map f l).
Proof. intros H. induction l; constructor; auto. Qed.

Lemma execute_keeps_shape (config : Config) (c : Command) (st : ExtState) :
  (forall u, Forall handlerShaped (getDiagnostics st u)) ->
  forall u, Forall handlerShaped (getDiagnostics (execute config c st) u).
Proof.
  intros Inv u.
  destruct (decide (targetUri c = Some u)) as [Hu | Hu];
    [| by rewrite execute_other_document].
  destruct c as [[d|] [r|e] p | [d|] r | [d|] [r|e] | [d|] [r|e] | p];
    try discriminate Hu; injection Hu as <-; cbn [execute].
  - rewrite review_success_get. apply Forall_map_built, reviewDiagnostic_shaped.
  - unfold getDiagnostics. rewrite review_failure_ledger. apply Inv.
  - unfold getDiagnostics. rewrite roast_ledger. apply Inv.
  - rewrite securityScan_success_get. apply Forall_app. split.
    + apply Forall_List_filter, Inv.
    + apply Forall_map_built, securityDiagnostic_shaped.
  - unfold getDiagnostics. rewrite securityScan_failure_ledger. apply Inv.
  - rewrite complexity_success_get. apply Forall_app. split.
    + apply Forall_List_filter, Inv.
    + apply Forall_map_built, complexityDiagnostic_shaped.
  - unfold getDiagnostics. rewrite complexity_failure_ledger. apply Inv.
Qed.

Lemma run_keeps_shape (config : Config) (commands : list Command) (st : ExtState) :
  (forall u, Forall handlerShaped (getDiagnostics st u)) ->
  forall u, Forall handlerShaped (getDiagnostics (run config commands st) u).
Proof.
  revert st. induction commands as [|c cs IH]; intros st Inv; [exact Inv |].
  unfold run. cbn [fold_left]. apply IH. by apply execute_keeps_shape.
Qed.

Lemma shaped_isDevSentinel (d : Diagnostic) : handlerShaped d -> isDevSentinel d = true.
Proof. intros (Hs & _). unfold isDevSentinel. by rewrite Hs. Qed.

(** Whatever commands have run since activation, and whatever the backend
    answered, every annotation stored for any document has the extension's
    source tag, is anchored on one whole line and has the product prefix
    in its message; so the code-action provider offers one action for each
    of them, in order. *)
Theorem reachable_annotations_are_handler_shaped
    (config : Config) (probe : bool) (commands : list Command) (u : string)
    (document : TextDocument) :
  let stored := getDiagnostics (run config commands (activate config probe)) u in
  Forall handlerShaped stored /\
  map ca_diagnostics (provideCodeActions document stored) = map (fun d => [d]) stored.
Proof.
  cbv zeta.
  assert (Forall handlerShaped
            (getDiagnostics (run config commands (activate config probe)) u)) as H.
  { apply run_keeps_shape. intros v. unfold getDiagnostics.
    replace (diagnosticCollection (activate config probe)) with (∅ : gmap string (list Diagnostic))
      by (by destruct probe).
    by rewrite lookup_empty. }
  split; [exact H |].
  unfold provideCodeActions. rewrite filter_all.
  - by rewrite map_map.
  - intros d Hd. apply shaped_isDevSentinel.
    rewrite Forall_forall in H. apply H. by apply list_elem_of_In.
Qed.

(** ** Code actions *)

(** Diagnostics of other tools are never offered a fix, while every
    complexity annotation is offered an action that carries no edit. *)
Theorem code_action_scope
    (document : TextDocument) (others : list Diagnostic) (thr : Z) (fs : list FunctionInfo) :
  provideCodeActions document (List.filter (fun d => negb (isDevSentinel d)) others) = [] /\
  map edit (provideCodeActions document (map (complexityDiagnostic thr) fs))
    = map (fun _ => None) fs /\
  map title (provideCodeActions document (map (complexityDiagnostic thr) fs))
    = map (fun f => "Apply Fix: " +:+ message (complexityDiagnostic thr f)) fs.
Proof.
  unfold provideCodeActions. split; [| split].
  - by rewrite (filter_after_complement isDevSentinel).
  - rewrite filter_all by (by intros d [f [<- _]]%in_map_iff). by rewrite !map_map.
  - rewrite filter_all by (by intros d [f [<- _]]%in_map_iff). by rewrite !map_map.
Qed.

(** ** Trimming the replacement text *)

Lemma allLineBreaks_append (s t : string) :
  JsString.allLineBreaks (s +:+ t) = JsString.allLineBreaks s && JsString.allLineBreaks t.
Proof.
  induction s as [|c s IH]; [done |].
  change (JsString.isLineBreak c && JsString.allLineBreaks (s +:+ t)
          = JsString.isLineBreak c && JsString.allLineBreaks s && JsString.allLineBreaks t).
  by rewrite IH, andb_assoc.
Qed.

Lemma strip_allLineBreaks (s : string) :
  JsString.allLineBreaks s = true -> JsString.stripTrailingLineBreaks s = EmptyString.
Proof. destruct s as [|c s]; [done |]. intros H. cbn [JsString.stripTrailingLineBreaks]. by rewrite H. Qed.

Lemma strip_append_breaks (s tail : string) :
  JsString.allLineBreaks tail = true ->
  JsString.stripTrailingLineBreaks (s +:+ tail) = JsString.stripTrailingLineBreaks s.
Proof.
  intros Ht. induction s as [|c s IH].
  - by apply strip_allLineBreaks.
  - change (String c s +:+ tail) with (String c (s +:+ tail)).
    cbn [JsString.stripTrailingLineBreaks].
    change (JsString.allLineBreaks (String c (s +:+ tail)))
      with (JsString.allLineBreaks (String c s +:+ tail)).
    rewrite allLineBreaks_append, Ht, andb_true_r.
    destruct (JsString.allLineBreaks (String c s)); [done | by rewrite IH].
Qed.

(** The text a fix inserts does not depend on how many line breaks the
    backend appended to [fixed_code]: adding a run of trailing line breaks
    to the stored text does not change the trimmed text, and so not the
    edit [createFix] attaches. *)
Theorem trailing_line_breaks_do_not_matter
    (document : TextDocument) (d : Diagnostic) (c : ascii) (s tail : string) :
  JsString.allLineBreaks tail = true ->
  JsString.stripTrailingLineBreaks (String c s +:+ tail)
    = JsString.stripTrailingLineBreaks (String c s) /\
  edit (createFix document (set_code (Some (String c s +:+ tail)) d))
    = edit (createFix document (set_code (Some (String c s)) d)).
Proof.
  intros Ht. split; [by apply strip_append_breaks |].
  pose proof (strip_append_breaks (String c s) tail Ht) as Hstrip.
  unfold createFix. cbn [code set_code].
  change (String c s +:+ tail) with (String c (s +:+ tail)) in *.
  cbn [JsString.truthy default edit id range]. by rewrite Hstrip.
Qed.

Lemma trailing_line_breaks_do_not_matter_witness :
  JsString.stripTrailingLineBreaks ("safeEval(x)" +:+ (String "013" (String "010" EmptyString)))
  = JsString.stripTrailingLineBreaks "safeEval(x)".
Proof.
  exact (proj1 (trailing_line_breaks_do_not_matter Scenario.document
                  (reviewDiagnostic Scenario.evalComment) "s" "afeEval(x)"
                  (String "013" (String "010" EmptyString)) eq_refl)).
Defined.

(** Trimming is idempotent, and it never touches line breaks inside the
    text: whatever precedes the last character that is not a line break
    is kept as it is. *)
Theorem stripTrailingLineBreaks_idempotent (s : string) (c : ascii) :
  JsString.stripTrailingLineBreaks (JsString.stripTrailingLineBreaks s)
    = JsString.stripTrailingLineBreaks s /\
  (JsString.isLineBreak c = false ->
   JsString.stripTrailingLineBreaks (s +:+ String c EmptyString) = s +:+ String c EmptyString).
Proof.
  split.
  - destruct (stripTrailingLineBreaks_spec s) as [(tail & Hs & Ht) _].
    rewrite Hs at 2. by rewrite strip_append_breaks.
  - intros Hc. induction s as [|a s IH].
    + change (EmptyString +:+ String c EmptyString) with (String c EmptyString).
      cbn [JsString.stripTrailingLineBreaks JsString.allLineBreaks].
      by rewrite Hc.
    + change (String a s +:+ String c EmptyString) with (String a (s +:+ String c EmptyString)).
      cbn [JsString.stripTrailingLineBreaks].
      change (JsString.allLineBreaks (String a (s +:+ String c EmptyString)))
        with (JsString.allLineBreaks (String a s +:+ String c EmptyString)).
      rewrite allLineBreaks_append. cbn [JsString.allLineBreaks]. rewrite Hc.
      rewrite andb_false_l, andb_false_r. by rewrite IH.
Qed.

Lemma stripTrailingLineBreaks_idempotent_witness :
  JsString.stripTrailingLineBreaks ("a" +:+ LF +:+ "b" +:+ String ";" EmptyString)
  = "a" +:+ LF +:+ "b" +:+ String ";" EmptyString.
Proof.
  exact (proj2 (stripTrailingLineBreaks_idempotent ("a" +:+ LF +:+ "b") ";") eq_refl).
Defined.

(** ** HTML escaping *)

Lemma replaceAllChar_append (c : ascii) (rep a b : string) :
  JsText.replaceAllChar c rep (a +:+ b)
  = JsText.replaceAllChar c rep a +:+ JsText.replaceAllChar c rep b.
Proof.
  induction a as [|x a IH]; [done |].
  change (String x a +:+ b) with (String x (a +:+ b)).
  cbn [JsText.replaceAllChar]. rewrite IH.
  destruct (Ascii.eqb x c); [by rewrite append_assoc | done].
Qed.

Lemma escapeHtml_append (a b : string) : escapeHtml (a +:+ b) = escapeHtml a +:+ escapeHtml b.
Proof. unfold escapeHtml. by rewrite !replaceAllChar_append. Qed.

Lemma escapeHtml_char (c : ascii) : escapeHtml (String c EmptyString) = entityOf c.
Proof.
  unfold escapeHtml, entityOf. cbn [JsText.replaceAllChar].
  destruct (Ascii.eqb_spec c "&") as [->|H1]; [reflexivity |].
  cbn [JsText.replaceAllChar].
  destruct (Ascii.eqb_spec c "<") as [->|H2]; [reflexivity |].
  cbn [JsText.replaceAllChar].
  destruct (Ascii.eqb_spec c ">") as [->|H3]; [reflexivity |].
  cbn [JsText.replaceAllChar].
  destruct (Ascii.eqb_spec c "034") as [->|H4]; [reflexivity |].
  cbn [JsText.replaceAllChar].
  destruct (Ascii.eqb_spec c "'") as [->|H5]; reflexivity.
Qed.

Lemma escapeHtml_cons (c : ascii) (t : string) :
  escapeHtml (String c t) = entityOf c +:+ escapeHtml t.
Proof.
  change (String c t) with (String c EmptyString +:+ t).
  by rewrite escapeHtml_append, escapeHtml_char.
Qed.

Lemma escapeHtml_unfold (text : string) : escapeHtml text = escapeOnePass text.
Proof. induction text as [|c t IH]; [done |]. by rewrite escapeHtml_cons, IH. Qed.

(** The five chained replacements of [escapeHtml] amount to one pass that
    turns each of the characters ampersand, less-than, greater-than, double
    quote and apostrophe into its entity and copies every other character:
    the ampersands written by one replacement are not escaped again by a
    later one. *)
Theorem escapeHtml_is_one_pass (text : string) :
  escapeHtml text = escapeOnePass text /\
  (forall a b, escapeHtml (a +:+ b) = escapeHtml a +:+ escapeHtml b).
Proof.
  split; [| apply escapeHtml_append].
  induction text as [|c t IH]; [reflexivity |].
  rewrite escapeHtml_cons, IH. reflexivity.
Qed.

Lemma occurs_append (c : ascii) (a b : string) :
  JsText.occurs c (a +:+ b) = JsText.occurs c a || JsText.occurs c b.
Proof.
  induction a as [|x a IH]; [done |].
  change (Ascii.eqb x c || JsText.occurs c (a +:+ b)
          = Ascii.eqb x c || JsText.occurs c a || JsText.occurs c b).
  by rewrite IH, orb_assoc.
Qed.

Lemma entityOf_clean (c x : ascii) :
  x = "<"%char \/ x = ">"%char \/ x = "034"%char \/ x = "'"%char ->
  JsText.occurs x (entityOf c) = false.
Proof.
  intros Hx. unfold entityOf.
  destruct (Ascii.eqb_spec c "&") as [->|H1];
    [destruct Hx as [-> | [-> | [-> | ->]]]; reflexivity |].
  destruct (Ascii.eqb_spec c "<") as [->|H2];
    [destruct Hx as [-> | [-> | [-> | ->]]]; reflexivity |].
  destruct (Ascii.eqb_spec c ">") as [->|H3];
    [destruct Hx as [-> | [-> | [-> | ->]]]; reflexivity |].
  destruct (Ascii.eqb_spec c "034") as [->|H4];
    [destruct Hx as [-> | [-> | [-> | ->]]]; reflexivity |].
  destruct (Ascii.eqb_spec c "'") as [->|H5];
    [destruct Hx as [-> | [-> | [-> | ->]]]; reflexivity |].
  cbn. rewrite orb_false_r. apply Ascii.eqb_neq.
  destruct Hx as [-> | [-> | [-> | ->]]]; done.
Qed.

(** Escaped text contains no less-than, greater-than, double quote or
    apostrophe, whatever the input. *)
Theorem escapeHtml_leaves_no_markup (text : string) :
  JsText.occurs "<" (escapeHtml text) = false /\
  JsText.occurs ">" (escapeHtml text) = false /\
  JsText.occurs "034" (escapeHtml text) = false /\
  JsText.occurs "'" (escapeHtml text) = false.
Proof.
  rewrite escapeHtml_unfold.
  induction text as [|c t (H1 & H2 & H3 & H4)]; [done |].
  cbn [escapeOnePass]. rewrite !occurs_append, H1, H2, H3, H4, !orb_false_r.
  repeat split; apply entityOf_clean; auto.
Qed.

Lemma entityOf_cases (c : ascii) :
  (c = "&"%char /\ entityOf c = "&amp;") \/
  (c = "<"%char /\ entityOf c = "&lt;") \/
  (c = ">"%char /\ entityOf c = "&gt;") \/
  (c = "034"%char /\ entityOf c = "&quot;") \/
  (c = "'"%char /\ entityOf c = "&#039;") \/
  (c <> "&"%char /\ entityOf c = String c EmptyString).
Proof.
  unfold entityOf.
  destruct (Ascii.eqb_spec c "&") as [->|H1]; [by left |].
  destruct (Ascii.eqb_spec c "<") as [->|H2]; [by right; left |].
  destruct (Ascii.eqb_spec c ">") as [->|H3]; [by right; right; left |].
  destruct (Ascii.eqb_spec c "034") as [->|H4]; [by right; right; right; left |].
  destruct (Ascii.eqb_spec c "'") as [->|H5]; [by right; right; right; right; left |].
  by right; right; right; right; right.
Qed.

(** [escapeHtml] loses nothing: two texts with the same escaped form are
    the same text. *)
Theorem escapeHtml_injective (s1 s2 : string) :
  escapeHtml s1 = escapeHtml s2 -> s1 = s2.
Proof.
  rewrite !escapeHtml_unfold.
  revert s2. induction s1 as [|c1 t1 IH]; intros [|c2 t2]; cbn [escapeOnePass]; intros H.
  - reflexivity.
  - exfalso.
    destruct (entityOf_cases c2) as [[_ E]|[[_ E]|[[_ E]|[[_ E]|[[_ E]|[_ E]]]]]];
      rewrite E in H; discriminate H.
  - exfalso.
    destruct (entityOf_cases c1) as [[_ E]|[[_ E]|[[_ E]|[[_ E]|[[_ E]|[_ E]]]]]];
      rewrite E in H; discriminate H.
  - destruct (entityOf_cases c1) as [[-> E1]|[[-> E1]|[[-> E1]|[[-> E1]|[[-> E1]|[N1 E1]]]]]];
      destruct (entityOf_cases c2) as [[-> E2]|[[-> E2]|[[-> E2]|[[-> E2]|[[-> E2]|[N2 E2]]]]]];
      rewrite ?E1, ?E2 in H; cbv [String.append] in H;
      try discriminate H;
      try (injection H as H; f_equal; by apply IH);
      try (injection H as Hc H; congruence).
    injection H as -> H. f_equal. by apply IH.
Qed.

Lemma escapeHtml_injective_witness : "a<b" +:+ "&c" = "a<" +:+ "b&c".
Proof. exact (escapeHtml_injective ("a<b" +:+ "&c") ("a<" +:+ "b&c") eq_refl). Defined.

Lemma replaceLineFeeds_entity (c : ascii) :
  c <> "010"%char -> JsText.replaceAllChar "010" "<br>" (entityOf c) = entityOf c.
Proof.
  intros Hc.
  destruct (entityOf_cases c) as [[_ E]|[[_ E]|[[_ E]|[[_ E]|[[_ E]|[_ E]]]]]];
    rewrite E; try reflexivity.
  cbn [JsText.replaceAllChar]. by destruct (Ascii.eqb_spec c "010").
Qed.

Lemma safeRoast_unfold (roast : string) : safeRoast roast = roastOnePass roast.
Proof.
  unfold safeRoast. rewrite escapeHtml_unfold.
  induction roast as [|c t IH]; [done |].
  cbn [escapeOnePass roastOnePass]. rewrite replaceAllChar_append, IH. f_equal.
  unfold roastPieceOf. destruct (Ascii.eqb_spec c "010") as [->|Hc]; [reflexivity |].
  by apply replaceLineFeeds_entity.
Qed.

(** The fragment placed in the roast panel is the roast with every line
    feed turned into a [<br>] tag and every other character escaped as by
    [escapeHtml]; it contains no line feed, no double quote and no
    apostrophe. *)
Theorem safeRoast_is_one_pass (roast : string) :
  safeRoast roast = roastOnePass roast /\
  JsText.occurs "010" (safeRoast roast) = false /\
  JsText.occurs "034" (safeRoast roast) = false /\
  JsText.occurs "'" (safeRoast roast) = false.
Proof.
  split; [apply safeRoast_unfold |]. rewrite safeRoast_unfold.
  induction roast as [|c t (H1 & H2 & H3)]; [done |].
  cbn [roastOnePass]. rewrite !occurs_append, H1, H2, H3, !orb_false_r.
  unfold roastPieceOf. destruct (Ascii.eqb_spec c "010") as [->|Hc]; [done |].
  split; [| split; apply entityOf_clean; auto].
  destruct (entityOf_cases c) as [[_ E]|[[_ E]|[[_ E]|[[_ E]|[[_ E]|[_ E]]]]]];
    rewrite E; try reflexivity.
  cbn. rewrite orb_false_r. by apply Ascii.eqb_neq.
Qed.

(** ** Hover provider *)

(** The hover provider answers [null] exactly when no annotation of the
    extension starts on the hovered line of the document (whether the
    document has no entry, an empty entry, or only annotations on other
    lines); otherwise the hover has one part per such annotation, in the
    order of the collection. *)
Theorem provideHover_result
    (st : ExtState) (document : TextDocument) (languageId : string) (position : Position) :
  provideHover st document languageId position
  = match List.filter (onLine (line position)) (getDiagnostics st (uri document)) with
    | [] => None
    | d :: ds => Some (map (hoverPart languageId) (d :: ds))
    end.
Proof.
  unfold provideHover, getDiagnostics.
  destruct (diagnosticCollection st !! uri document) as [[|d0 ds0]|]; try reflexivity.
  cbn [length Nat.eqb default from_option id].
  destruct (List.filter (onLine (line position)) (d0 :: ds0)); reflexivity.
Qed.

Lemma truthy_edit (document : TextDocument) (diag : Diagnostic) :
  JsString.truthy (code diag) = true <-> edit (createFix document diag) <> None.
Proof.
  unfold createFix; cbn [edit]. destruct (JsString.truthy (code diag)); split; done.
Qed.

(** The hover shows a recommended fix exactly for the annotations whose
    quick fix carries an edit and whose replacement is not blank; so a fix
    shown in the hover can always be applied. *)
Theorem hover_fix_iff_unblank_quick_fix (document : TextDocument) (diag : Diagnostic) :
  showsRecommendedFix diag = true <->
  edit (createFix document diag) <> None /\
  JsText.isBlank (default EmptyString (code diag)) = false.
Proof.
  unfold showsRecommendedFix. rewrite andb_true_iff, negb_true_iff.
  by rewrite (truthy_edit document).
Qed.

(** A replacement that is not empty but blank (spaces, line breaks) is
    not shown in the hover, yet its quick fix still rewrites the line. *)
Theorem blank_fix_hidden_but_applied
    (document : TextDocument) (languageId : string) (d : Diagnostic) (c : ascii) (s : string) :
  JsText.isBlank (String c s) = true ->
  let diag := set_code (Some (String c s)) d in
  showsRecommendedFix diag = false /\
  segments (hoverPart languageId diag)
    = [MdText ("**DevSentinel** — " +:+ severityLabel (severity d) +:+ LF +:+ LF);
       MdText (hoverMessage (message d) +:+ LF +:+ LF)] /\
  edit (createFix document diag)
    = Some [mkTextEdit (uri document) (range d)
              (JsString.stripTrailingLineBreaks (String c s))].
Proof.
  intros Hb diag.
  assert (showsRecommendedFix diag = false) as Hs.
  { unfold showsRecommendedFix, diag.
    cbn [code set_code JsString.truthy default from_option id].
    by rewrite Hb. }
  split; [exact Hs |]. split; [| reflexivity].
  unfold hoverPart. rewrite Hs. reflexivity.
Qed.

Lemma blank_fix_hidden_but_applied_witness :
  showsRecommendedFix (reviewDiagnostic Scenario.lineBreakOnly) = false /\
  edit (createFix Scenario.document (reviewDiagnostic Scenario.lineBreakOnly))
    = Some [mkTextEdit (uri Scenario.document) (newRange 3 0 3 Number_MAX_VALUE) EmptyString] /\
  showsRecommendedFix (reviewDiagnostic Samples.blankFix) = false /\
  edit (createFix Scenario.document (reviewDiagnostic Samples.blankFix))
    = Some [mkTextEdit (uri Scenario.document) (newRange 3 0 3 Number_MAX_VALUE) " "].
Proof.
  pose proof (blank_fix_hidden_but_applied Scenario.document "python"
                (reviewDiagnostic Scenario.lineBreakOnly) "010" EmptyString eq_refl)
    as (H1 & _ & H2).
  pose proof (blank_fix_hidden_but_applied Scenario.document "python"
                (reviewDiagnostic Samples.blankFix) " " EmptyString eq_refl)
    as (H3 & _ & H4).
  split; [exact H1 |]. split; [exact H2 |]. split; [exact H3 | exact H4].
Defined.

Lemma stripPrefix_startsWith (needle s : string) :
  JsString.startsWith needle s = false -> JsText.stripPrefix needle s = None.
Proof.
  revert s. induction needle as [|a n IH]; intros [|b s]; cbn; try done.
  destruct (Ascii.eqb a b); [apply IH | done].
Qed.

Lemma removeFirst_absent (needle s : string) :
  JsString.includes needle s = false -> JsText.removeFirst needle s = s.
Proof.
  induction s as [|c s IH]; cbn [JsString.includes JsText.removeFirst];
    intros [Hp Hr]%orb_false_iff; rewrite (stripPrefix_startsWith _ _ Hp); [done |].
  by rewrite IH.
Qed.

Lemma includes_longer (pre needle s : string) :
  JsString.includes needle s = false -> JsString.includes (pre +:+ needle) s = false.
Proof.
  intros H. destruct (JsString.includes (pre +:+ needle) s) eqn:E; [| done].
  apply includes_spec in E as (a & b & ->).
  assert (JsString.includes needle (a +:+ (pre +:+ needle) +:+ b) = true) as H'.
  { apply includes_spec. exists (a +:+ pre), b. by rewrite !append_assoc. }
  congruence.
Qed.

Lemma startsWith_includes (needle s : string) :
  JsString.includes needle s = false -> JsString.startsWith needle s = false.
Proof. destruct s; cbn [JsString.includes]; by intros [H _]%orb_false_iff. Qed.

(** What the three chained replacements make of the handlers' prefixes,
    for a text that does not itself quote the product prefix. *)
Lemma hoverMessage_prefixes (body : string) :
  JsString.includes "DevSentinel: " body = false ->
  hoverMessage ("DevSentinel: " +:+ body) = body /\
  hoverMessage ("[SECURITY] DevSentinel: " +:+ body) = "[SECURITY] " +:+ body /\
  hoverMessage ("[COMPLEXITY] DevSentinel: " +:+ body) = "[COMPLEXITY] " +:+ body.
Proof.
  intros H.
  pose proof (includes_longer "[SECURITY] " _ _ H) as H2.
  pose proof (includes_longer "[COMPLEXITY] " _ _ H) as H3.
  pose proof (startsWith_includes _ _ H) as H0.
  change ("[SECURITY] " +:+ "DevSentinel: ") with "[SECURITY] DevSentinel: " in H2.
  change ("[COMPLEXITY] " +:+ "DevSentinel: ") with "[COMPLEXITY] DevSentinel: " in H3.
  assert (JsString.includes "[SECURITY] DevSentinel: " ("[SECURITY] " +:+ body) = false) as S2.
  { change (JsString.includes "[SECURITY] DevSentinel: " ("[SECURITY] " +:+ body))
      with (JsString.startsWith "DevSentinel: " body
            || JsString.includes "[SECURITY] DevSentinel: " body).
    by rewrite H0, H2. }
  assert (JsString.includes "[COMPLEXITY] DevSentinel: " ("[SECURITY] " +:+ body) = false) as S3.
  { change (JsString.includes "[COMPLEXITY] DevSentinel: " ("[SECURITY] " +:+ body))
      with (JsString.includes "[COMPLEXITY] DevSentinel: " body). exact H3. }
  assert (JsString.includes "[SECURITY] DevSentinel: " ("[COMPLEXITY] " +:+ body) = false) as C2.
  { change (JsString.includes "[SECURITY] DevSentinel: " ("[COMPLEXITY] " +:+ body))
      with (JsString.includes "[SECURITY] DevSentinel: " body). exact H2. }
  assert (JsString.includes "[COMPLEXITY] DevSentinel: " ("[COMPLEXITY] " +:+ body) = false)
    as C3.
  { change (JsString.includes "[COMPLEXITY] DevSentinel: " ("[COMPLEXITY] " +:+ body))
      with (JsString.startsWith "DevSentinel: " body
            || JsString.includes "[COMPLEXITY] DevSentinel: " body).
    by rewrite H0, H3. }
  unfold hoverMessage. split; [| split].
  - change (JsText.removeFirst "DevSentinel: " ("DevSentinel: " +:+ body)) with body.
    by rewrite (removeFirst_absent _ _ H2), (removeFirst_absent _ _ H3).
  - change (JsText.removeFirst "DevSentinel: " ("[SECURITY] DevSentinel: " +:+ body))
      with ("[SECURITY] " +:+ body).
    by rewrite (removeFirst_absent _ _ S2), (removeFirst_absent _ _ S3).
  - change (JsText.removeFirst "DevSentinel: " ("[COMPLEXITY] DevSentinel: " +:+ body))
      with ("[COMPLEXITY] " +:+ body).
    by rewrite (removeFirst_absent _ _ C2), (removeFirst_absent _ _ C3).
Qed.

(** In the hover text only the product prefix is removed: the text of a
    review comment is shown bare, while a security or complexity
    annotation keeps its category marker in front, because once the first
    replacement has removed the product prefix the two longer prefixes no
    longer occur.  (Stated for texts that do not quote the product prefix
    themselves.) *)
Theorem hover_text_keeps_category_marker (r : CodeFix) (thr : Z) (f : FunctionInfo) :
  let body :=
    "Function '" +:+ name f +:+ "' has cyclomatic complexity of "
      +:+ JsString.ofZ (complexity f) +:+ " (threshold: " +:+ JsString.ofZ thr +:+ ")" in
  JsString.includes "DevSentinel: " (suggestion r) = false ->
  JsString.includes "DevSentinel: " body = false ->
  hoverMessage (message (reviewDiagnostic r)) = suggestion r /\
  hoverMessage (message (securityDiagnostic r)) = "[SECURITY] " +:+ suggestion r /\
  hoverMessage (message (complexityDiagnostic thr f)) = "[COMPLEXITY] " +:+ body.
Proof.
  intros body Hr Hf.
  destruct (hoverMessage_prefixes _ Hr) as (H1 & H2 & _).
  destruct (hoverMessage_prefixes _ Hf) as (_ & _ & H3).
  split; [exact H1 |]. split; [exact H2 | exact H3].
Qed.

Lemma hover_text_keeps_category_marker_witness :
  hoverMessage (message (reviewDiagnostic Scenario.sqlFinding)) = "SQL built by concatenation" /\
  hoverMessage (message (securityDiagnostic Scenario.sqlFinding))
    = "[SECURITY] SQL built by concatenation" /\
  hoverMessage (message (complexityDiagnostic 10 Scenario.foo))
    = "[COMPLEXITY] Function 'foo' has cyclomatic complexity of 15 (threshold: 10)".
Proof.
  exact (hover_text_keeps_category_marker Scenario.sqlFinding 10 Scenario.foo eq_refl eq_refl).
Defined.

(** ** The legacy review command *)


(** ** Reporting failures *)


(** When the connection is refused, review, security scan and complexity
    all show the same question to the user, but only review re-checks the
    connection: it sets the status bar to what the check finds, while the
    other two leave the status bar as it was. *)
Theorem connection_refused_handling
    (config : Config) (document : TextDocument) (error : AxiosError) (probe : bool)
    (st : ExtState) :
  isCode "ECONNREFUSED" error = true ->
  let question :=
    mkNotification ErrorMessage "DevSentinel: Could not connect to backend. Is it running?" in
  notifications (review config (Some document) (Rejected error) probe st)
    = (notifications st ++ [question])%list /\
  notifications (securityScan config (Some document) (Rejected error) st)
    = (notifications st ++ [question])%list /\
  notifications (complexityCmd config (Some document) (Rejected error) st)
    = (notifications st ++ [question])%list /\
  statusBarItem (review config (Some document) (Rejected error) probe st)
    = (if probe
       then mkStatusBar "$(shield) DevSentinel" "DevSentinel Backend: Online" false
       else mkStatusBar "$(error) DevSentinel" "DevSentinel Backend: Offline" true) /\
  statusBarItem (securityScan config (Some document) (Rejected error) st) = statusBarItem st /\
  statusBarItem (complexityCmd config (Some document) (Rejected error) st) = statusBarItem st.
Proof.
  intros Hc question. unfold review, securityScan, complexityCmd. rewrite Hc.
  destruct probe; repeat split.
Qed.

Lemma connection_refused_handling_witness :
  statusBarItem
    (review Scenario.config (Some Scenario.document)
       (Rejected (mkAxiosError (Some "ECONNREFUSED") "connect ECONNREFUSED 127.0.0.1:8000"
                    "Error: connect ECONNREFUSED 127.0.0.1:8000"))
       false (activate Scenario.config true))
  = mkStatusBar "$(error) DevSentinel" "DevSentinel Backend: Offline" true /\
  statusBarItem
    (securityScan Scenario.config (Some Scenario.document)
       (Rejected (mkAxiosError (Some "ECONNREFUSED") "connect ECONNREFUSED 127.0.0.1:8000"
                    "Error: connect ECONNREFUSED 127.0.0.1:8000"))
       (activate Scenario.config true))
  = statusBarItem (activate Scenario.config true).
Proof.
  pose proof (connection_refused_handling Scenario.config Scenario.document
                (mkAxiosError (Some "ECONNREFUSED") "connect ECONNREFUSED 127.0.0.1:8000"
                   "Error: connect ECONNREFUSED 127.0.0.1:8000")
                false (activate Scenario.config true) eq_refl)
    as (_ & _ & _ & H1 & H2 & _).
  split; [exact H1 | exact H2].
Defined.

(** ** The two generations of the quick fix *)

Lemma lastChar_append_char (s : string) (c : ascii) :
  JsString.lastChar (s +:+ String c EmptyString) = Some c.
Proof.
  induction s as [|a s IH]; [done |].
  change (String a s +:+ String c EmptyString) with (String a (s +:+ String c EmptyString)).
  cbn [JsString.lastChar]. rewrite IH.
  destruct s; reflexivity.
Qed.

(** The legacy and the current quick fix attach an edit for exactly the
    same annotations and over the same range; the legacy text always ends
    in a line feed, the current text never ends in a line break. *)
Theorem quick_fix_generations (document : TextDocument) (d : Diagnostic) :
  (edit (Legacy.createFixScan document d) = None <-> edit (createFix document d) = None) /\
  map edit_range (default [] (edit (Legacy.createFixScan document d)))
    = map edit_range (default [] (edit (createFix document d))) /\
  Forall (fun e => JsString.lastChar (newText e) = Some "010"%char)
         (default [] (edit (Legacy.createFixScan document d))) /\
  Forall (fun e => forall ch, JsString.lastChar (newText e) = Some ch ->
                              JsString.isLineBreak ch = false)
         (default [] (edit (createFix document d))).
Proof.
  unfold Legacy.createFixScan, createFix; cbn [edit].
  destruct (JsString.truthy (code d)); cbn [default from_option id map edit_range newText].
  - split; [done |]. split; [done |]. split; constructor; try constructor.
    + apply lastChar_append_char.
    + apply stripTrailingLineBreaks_spec.
  - repeat split; constructor.
Qed.
